(** * The proof driver [integration/llm_proof_driver.py]

    A shallow embedding of the driver script and the properties of its
    request encoding, its reading of the verifier's reply, and of the two
    ways it obtains proof steps.

    Python text is modelled as [string] holding the UTF-8 encoding of the
    text; Python objects coming out of [json.loads] are modelled by
    [value]; exceptions by [exn]; the calls the script makes to the outside
    (HTTP request, verifier process, printing) are recorded in a trace of
    [event]s, and what the outside answers is given by a [World]. Library
    functions ([json.loads], [json.dumps], [float], [str] of a non-string)
    are the fields of the class [Runtime]. *)

From Stdlib Require Import String Ascii List ZArith Lia Bool.
From Stdlib Require Import DecimalString.
Import ListNotations.

Open Scope list_scope.
Open Scope string_scope.

(** ** Text *)

(** The line feed and the double quote. *)
Definition nl : string := String (ascii_of_nat 10) EmptyString.
Definition dq : string := String (ascii_of_nat 34) EmptyString.

(** [sep.join(parts)] *)
Definition join (sep : string) (parts : list string) : string :=
  String.concat sep parts.

Definition bytes (l : list nat) : string :=
  string_of_list_ascii (map ascii_of_nat l).

Definition rev_string (s : string) : string :=
  string_of_list_ascii (rev (list_ascii_of_string s)).

(** The characters for which [str.isspace] holds, in UTF-8. *)
Definition whitespace : list string :=
  map bytes
    [ [9]; [10]; [11]; [12]; [13]; [28]; [29]; [30]; [31]; [32];
      [194; 133]; [194; 160]; [225; 154; 128];
      [226; 128; 128]; [226; 128; 129]; [226; 128; 130]; [226; 128; 131];
      [226; 128; 132]; [226; 128; 133]; [226; 128; 134]; [226; 128; 135];
      [226; 128; 136]; [226; 128; 137]; [226; 128; 138];
      [226; 128; 168]; [226; 128; 169]; [226; 128; 175];
      [226; 129; 159]; [227; 128; 128] ].

(** [strip_prefix p s] is the rest of [s] after its prefix [p], if [p] is
    a prefix of [s]. *)
Fixpoint strip_prefix (p s : string) : option string :=
  match p, s with
  | EmptyString, _ => Some s
  | String a p', String b s' =>
      if Ascii.eqb a b then strip_prefix p' s' else None
  | String _ _, EmptyString => None
  end.

Fixpoint drop_one (tokens : list string) (s : string) : option string :=
  match tokens with
  | [] => None
  | t :: tokens' =>
      match strip_prefix t s with
      | Some r => Some r
      | None => drop_one tokens' s
      end
  end.

Fixpoint drop_while (tokens : list string) (fuel : nat) (s : string) : string :=
  match fuel with
  | O => s
  | S fuel' =>
      match drop_one tokens s with
      | Some r => drop_while tokens fuel' r
      | None => s
      end
  end.

(** [s.lstrip()], [s.rstrip()] and [s.strip()] *)
Definition lstrip (s : string) : string :=
  drop_while whitespace (String.length s) s.

Definition rstrip (s : string) : string :=
  rev_string
    (drop_while (map rev_string whitespace) (String.length s) (rev_string s)).

Definition strip (s : string) : string := rstrip (lstrip s).

(** A byte that continues a UTF-8 sequence. *)
Definition is_continuation (a : ascii) : bool :=
  let n := nat_of_ascii a in ((128 <=? n)%nat && (n <? 192)%nat)%bool.

(** Whether a text begins in the middle of a character. *)
Definition starts_inside (s : string) : bool :=
  match s with
  | String b _ => is_continuation b
  | EmptyString => false
  end.

(** The characters of a text, each as a one-character text. *)
Fixpoint characters (s : string) : list string :=
  match s with
  | EmptyString => []
  | String a rest =>
      match characters rest with
      | c :: cs =>
          if starts_inside rest then String a c :: cs
          else String a EmptyString :: c :: cs
      | [] => [String a EmptyString]
      end
  end.

(** [len(s)] *)
Definition str_len (s : string) : nat := List.length (characters s).

Fixpoint repeat_string (s : string) (n : nat) : string :=
  match n with
  | O => EmptyString
  | S n' => s ++ repeat_string s n'
  end.

(** [s.ljust(width)] *)
Definition ljust (s : string) (width : nat) : string :=
  s ++ repeat_string " " (width - str_len s).

(** [str(n)] for an [int] *)
Definition str_int (z : Z) : string := NilZero.string_of_int (Z.to_int z).
Definition str_nat (n : nat) : string := str_int (Z.of_nat n).

(** [l.append(x)] *)
Definition append1 {A : Type} (l : list A) (x : A) : list A := (l ++ [x])%list.

(** [enumerate(l, start)] *)
Fixpoint enumerate {A : Type} (start : nat) (l : list A) : list (nat * A) :=
  match l with
  | [] => []
  | x :: l' => (start, x) :: enumerate (S start) l'
  end.

(** ** Values and exceptions *)

(** The objects [json.loads] builds, and the two numbers the script has
    besides them. A [float] is kept as its [repr]. A [dict] keeps its
    entries in insertion order, each key once. *)
#[warnings="-register-all"]
Inductive value : Type :=
| VNone
| VBool (b : bool)
| VInt (z : Z)
| VFloat (repr : string)
| VStr (s : string)
| VList (items : list value)
| VDict (entries : list (string * value)).

Inductive exn : Type :=
| RuntimeError (msg : string)
| KeyError (key : value)
| IndexError
| TypeError
| AttributeError
| ValueError (msg : string)
| JSONDecodeError (msg : string)
| OtherError (name msg : string).

Definition Result (A : Type) : Type := (exn + A)%type.

Definition Ok {A : Type} (a : A) : Result A := inr a.
Definition Raise {A : Type} (e : exn) : Result A := inl e.

Definition rbind {A B : Type} (r : Result A) (k : A -> Result B) : Result B :=
  match r with
  | inl e => inl e
  | inr a => k a
  end.

Notation "'let?' x ':=' r 'in' k" := (rbind r (fun x => k))
  (at level 10, x pattern, r at level 100, k at level 200).

Fixpoint mapR {A B : Type} (f : A -> Result B) (l : list A) : Result (list B) :=
  match l with
  | [] => Ok []
  | x :: l' =>
      let? y := f x in
      let? ys := mapR f l' in
      Ok (y :: ys)
  end.

Fixpoint dict_get (entries : list (string * value)) (key : string) : option value :=
  match entries with
  | [] => None
  | (k, v) :: entries' => if String.eqb k key then Some v else dict_get entries' key
  end.

(** [v[key]] for a text [key] *)
Definition getitem (v : value) (key : string) : Result value :=
  match v with
  | VDict entries =>
      match dict_get entries key with
      | Some x => Ok x
      | None => Raise (KeyError (VStr key))
      end
  | _ => Raise TypeError
  end.

(** [v[i]] for a number [i >= 0] *)
Definition getitem_at (v : value) (i : nat) : Result value :=
  match v with
  | VList items =>
      match nth_error items i with
      | Some x => Ok x
      | None => Raise IndexError
      end
  | VStr s =>
      match nth_error (characters s) i with
      | Some c => Ok (VStr c)
      | None => Raise IndexError
      end
  | VDict _ => Raise (KeyError (VInt (Z.of_nat i)))
  | _ => Raise TypeError
  end.

(** [v.get(key, default)] *)
Definition py_get (v : value) (key : string) (default : value) : Result value :=
  match v with
  | VDict entries =>
      match dict_get entries key with
      | Some x => Ok x
      | None => Ok default
      end
  | _ => Raise AttributeError
  end.

(** [for item in v] *)
Definition py_iter (v : value) : Result (list value) :=
  match v with
  | VList items => Ok items
  | VDict entries => Ok (map (fun kv => VStr (fst kv)) entries)
  | VStr s => Ok (map VStr (characters s))
  | _ => Raise TypeError
  end.

(** [bool(v)] *)
Definition truthy (v : value) : bool :=
  match v with
  | VNone => false
  | VBool b => b
  | VInt z => negb (Z.eqb z 0)
  | VFloat r => negb (String.eqb r "0.0" || String.eqb r "-0.0")%bool
  | VStr s => negb (String.eqb s "")
  | VList items => match items with [] => false | _ => true end
  | VDict entries => match entries with [] => false | _ => true end
  end.

(** [len(v)] *)
Definition py_len (v : value) : Result nat :=
  match v with
  | VStr s => Ok (str_len s)
  | VList items => Ok (List.length items)
  | VDict entries => Ok (List.length entries)
  | _ => Raise TypeError
  end.

(** [v.ljust(width)] *)
Definition py_ljust (v : value) (width : nat) : Result string :=
  match v with
  | VStr s => Ok (ljust s width)
  | _ => Raise AttributeError
  end.

(** ** The library and the outside world *)

Class Runtime : Type := {
  (** [json.loads(s)] for a text [s] *)
  json_loads : string -> Result value;
  (** [json.dumps(v)] *)
  json_dumps : value -> string;
  (** [float(s)] for a text [s] *)
  py_float : string -> Result value;
  (** [str(v)] for a [v] that is not a text *)
  py_repr : value -> string
}.

(** What an f-string puts for [{v}]. *)
Definition py_str `{Runtime} (v : value) : string :=
  match v with
  | VStr s => s
  | _ => py_repr v
  end.

(** [json.loads(v)] *)
Definition loads `{Runtime} (v : value) : Result value :=
  match v with
  | VStr s => json_loads s
  | _ => Raise TypeError
  end.

(** [subprocess.CompletedProcess], with [text=True, capture_output=True] *)
Record CompletedProcess : Type := {
  returncode : Z;
  stdout : string;
  stderr : string
}.

(** [urllib.request.Request] *)
Record Request : Type := {
  full_url : string;
  data : string;
  headers : list (string * string);
  method : string
}.

(** What [urlopen], [resp.read().decode("utf-8")] end in. *)
Inductive http_reply : Type :=
| HttpBody (body : string)
| HttpError (code : Z) (message : string)
| UrlError (reason : string)
| HttpRaise (e : exn).

Record World : Type := {
  (** [os.environ.get(name)] *)
  environ : string -> option string;
  (** [os.pathsep] *)
  pathsep : string;
  (** [sys.stdin.read()] *)
  stdin : string;
  (** the generation backend *)
  urlopen : Request -> value -> http_reply;
  (** the verifier process *)
  subprocess_run : list string -> string -> Result CompletedProcess
}.

Inductive stream : Type := Stdout | Stderr.

Inductive event : Type :=
| Urlopen (req : Request) (timeout : value)
| SubprocessRun (argv : list string) (input : string)
| Print (to : stream) (text : string).

(** A computation: how it ends, and what it did on the way. *)
Definition M (A : Type) : Type := (Result A * list event)%type.

Definition ret {A : Type} (a : A) : M A := (Ok a, []).
Definition raise {A : Type} (e : exn) : M A := (Raise e, []).
Definition lift {A : Type} (r : Result A) : M A := (r, []).
Definition emit (e : event) : M unit := (Ok tt, [e]).

Definition bind {A B : Type} (m : M A) (k : A -> M B) : M B :=
  match m with
  | (inl e, t) => (inl e, t)
  | (inr a, t) => let (r, t') := k a in (r, (t ++ t')%list)
  end.

Notation "x <- m ;; k" := (bind m (fun x => k))
  (at level 61, m at next level, right associativity).
Notation "m ;;; k" := (bind m (fun _ => k))
  (at level 61, right associativity).

Fixpoint forM {A : Type} (l : list A) (f : A -> M unit) : M unit :=
  match l with
  | [] => ret tt
  | x :: l' => f x ;;; forM l' f
  end.

Definition outcome {A : Type} (m : M A) : Result A := fst m.
Definition trace {A : Type} (m : M A) : list event := snd m.

(** [print(text)] and [print(text, file=sys.stderr)] *)
Definition print (text : string) : M unit := emit (Print Stdout text).
Definition print_err (text : string) : M unit := emit (Print Stderr text).

(** ** The script *)

(** [class ProofStep] *)
Record ProofStep : Type := {
  formula : value;
  rule : value
}.

(** A step whose two fields are texts, as the class declares them. *)
Definition step (f r : string) : ProofStep :=
  {| formula := VStr f; rule := VStr r |}.

(** What [parse_args] returns. *)
Record Namespace : Type := {
  premise : list string;
  conclusion : string;
  model : string;
  temperature : value;
  dry_run : bool
}.

Definition SYSTEM_PROMPT : string :=
  join nl
    [ "You are assisting with automated natural deduction proofs for first-order logic.";
      "Syntax rules:";
      "- Predicates use uppercase identifiers; terms use lowercase (optionally with digits).";
      "- Quantifiers and connectives: ∀, ∃, ¬, ∧, ∨, →. Precedence: unary > ∧/∨ > →.";
      "- Columns are: line_number (implicit), formula, rule. Rules must match the proof checker:";
      "  Premise, Ass., Fresh, ∧i, ∧e₁, ∧e₂, ∨i₁, ∨i₂, ∨e, →i, →e, ¬i, ¬e, ¬¬i, ¬¬e,";
      "  ⊥e, ∀i, ∀e, ∃i, ∃e, =i, =e, MT, PBC, LEM, Copy, etc.";
      "- References for rules go in the rule column after the mnemonic, e.g. '→e 1,2'.";
      "- Include every premise as the first proof lines with rule 'Premise'.";
      "Respond with pure JSON matching:";
      "  {" ++ dq ++ "proof_steps" ++ dq ++ ": [{" ++ dq ++ "formula" ++ dq ++ ": "
        ++ dq ++ "..." ++ dq ++ ", " ++ dq ++ "rule" ++ dq ++ ": " ++ dq ++ "..." ++ dq
        ++ "}, ...]}";
      "Do not add commentary or markdown.";
      "" ].

Definition build_user_prompt (premises : list string) (conclusion : string) : string :=
  let lines := ["Find a proof that derives the conclusion from the premises."] in
  let lines :=
    match premises with
    | _ :: _ =>
        fold_left
          (fun lines ip => append1 lines ("  " ++ str_nat (fst ip) ++ ". " ++ snd ip))
          (enumerate 1 premises) (append1 lines "Premises:")
    | [] => append1 lines "No premises (empty context)."
    end in
  let lines := append1 lines ("Conclusion: " ++ conclusion) in
  let lines := append1 lines "" in
  let lines :=
    append1 lines
      "Return a complete sequence of proof lines, including the premises as the first lines." in
  let lines := append1 lines "Ensure references match line numbers starting at 1." in
  join nl lines.

Section Driver.

Context `{Runtime}.
Variable w : World.

(** [OPENAI_API_BASE] and [REQUEST_TIMEOUT], set when the module loads. *)
Definition OPENAI_API_BASE : string :=
  match environ w "OPENAI_API_BASE" with
  | Some v => v
  | None => "https://api.openai.com"
  end.

Definition REQUEST_TIMEOUT : Result value :=
  py_float
    match environ w "OPENAI_TIMEOUT" with
    | Some v => v
    | None => "180"
    end.

(** The request [call_llm] builds for the key [api_key]. *)
Definition chat_request (model : string) (temperature : value)
    (premises : list string) (conclusion : string) (api_key : string) : Request :=
  let prompt := build_user_prompt premises conclusion in
  let payload :=
    VDict
      [ ("model", VStr model);
        ("temperature", temperature);
        ("messages",
          VList
            [ VDict [("role", VStr "system"); ("content", VStr SYSTEM_PROMPT)];
              VDict [("role", VStr "user"); ("content", VStr prompt)] ]);
        ("response_format", VDict [("type", VStr "json_object")]) ] in
  {| full_url := OPENAI_API_BASE ++ "/v1/chat/completions";
     data := json_dumps payload;
     headers :=
       [ ("Content-Type", "application/json");
         ("Authorization", "Bearer " ++ api_key) ];
     method := "POST" |}.

Definition call_llm (model : string) (temperature : value)
    (premises : list string) (conclusion : string) : M (list ProofStep) :=
  let api_key := environ w "OPENAI_API_KEY" in
  match api_key with
  | None | Some EmptyString =>
      raise (RuntimeError "OPENAI_API_KEY environment variable is required.")
  | Some api_key =>
      let req := chat_request model temperature premises conclusion api_key in
      emit (Urlopen req (VInt 120)) ;;;
      body <-
        match urlopen w req (VInt 120) with
        | HttpBody body => ret body
        | HttpError code message =>
            raise (RuntimeError
                     ("OpenAI request failed: " ++ str_int code ++ " " ++ message))
        | UrlError reason =>
            raise (RuntimeError ("OpenAI request failed: " ++ reason))
        | HttpRaise e => raise e
        end ;;
      lift
        (let? reply := json_loads body in
         let? choices := getitem reply "choices" in
         let? choice := getitem_at choices 0 in
         let? message := getitem choice "message" in
         let? content := getitem message "content" in
         let? parsed := loads content in
         let? proof_steps := getitem parsed "proof_steps" in
         let? items := py_iter proof_steps in
         let? steps :=
           mapR (fun item =>
                   let? f := getitem item "formula" in
                   let? r := py_get item "rule" (VStr "") in
                   Ok {| formula := f; rule := r |})
                items in
         Ok steps)
  end.

Definition load_steps_from_stdin : M (list ProofStep) :=
  let data := stdin w in
  lift
    (let? parsed := json_loads data in
     let? proof_steps := getitem parsed "proof_steps" in
     let? items := py_iter proof_steps in
     mapR (fun item =>
             let? f := getitem item "formula" in
             let? r := py_get item "rule" (VStr "") in
             Ok {| formula := f; rule := r |})
          items).

(** The lines and the text [call_proof_checker] sends to the verifier. *)
Definition payload_lines (premises : list string) (conclusion : string)
    (steps : list ProofStep) : list string :=
  let payload_lines := ["CONCLUSION|" ++ conclusion] in
  let payload_lines :=
    fold_left (fun acc premise => append1 acc ("PREMISE|" ++ premise))
      premises payload_lines in
  let payload_lines :=
    fold_left
      (fun acc step =>
         append1 acc ("STEP|" ++ py_str (formula step) ++ "||" ++ py_str (rule step)))
      steps payload_lines in
  payload_lines.

Definition payload (premises : list string) (conclusion : string)
    (steps : list ProofStep) : string :=
  join nl (payload_lines premises conclusion steps) ++ nl.

(** The command [call_proof_checker] runs. *)
Definition verifier_command : list string :=
  let classpath := join (pathsep w) ["."; "src"] in
  ["java"; "-cp"; classpath; "integration.ProofVerifier"].

Definition call_proof_checker (premises : list string) (conclusion : string)
    (steps : list ProofStep) : M value :=
  let payload := payload premises conclusion steps in
  emit (SubprocessRun verifier_command payload) ;;;
  proc <- lift (subprocess_run w verifier_command payload) ;;
  if negb (returncode proc =? 0)%Z then
    raise (RuntimeError
             ("Proof verifier exited with code " ++ str_int (returncode proc)
                ++ ": " ++ strip (stderr proc)))
  else
    let output := strip (stdout proc) in
    if String.eqb output "" then
      raise (RuntimeError "Proof verifier produced no output.")
    else
      match json_loads output with
      | inr v => ret v
      | inl (JSONDecodeError err) =>
          raise (RuntimeError
                   ("Failed to parse verifier output '" ++ output ++ "': " ++ err))
      | inl e => raise e
      end.

Definition print_table (steps : list ProofStep) : M unit :=
  let headers := [VStr "Step"; VStr "Formula"; VStr "Justification"] in
  let rows :=
    map (fun ix => [VStr (str_nat (fst ix)); formula (snd ix); rule (snd ix)])
        (enumerate 1 steps) in
  widths <- lift (mapR py_len headers) ;;
  widths <-
    lift
      (fold_left
         (fun acc row =>
            let? widths := acc in
            mapR (fun wc => let? n := py_len (snd wc) in Ok (Nat.max (fst wc) n))
                 (combine widths row))
         rows (Ok widths)) ;;
  let format_row (row : list value) : Result string :=
    let? cells := mapR (fun cw => py_ljust (fst cw) (snd cw)) (combine row widths) in
    Ok (join "  " cells) in
  line <- lift (format_row headers) ;;
  print line ;;;
  print (join "  " (map (fun width => repeat_string "-" width) widths)) ;;;
  forM rows (fun row => line <- lift (format_row row) ;; print line).

Definition main (args : Namespace) : M Z :=
  steps <-
    (if dry_run args then load_steps_from_stdin
     else call_llm (model args) (temperature args) (premise args) (conclusion args)) ;;
  checker_result <- call_proof_checker (premise args) (conclusion args) steps ;;
  print_table steps ;;;
  print "" ;;;
  valid <- lift (py_get checker_result "valid" (VBool false)) ;;
  print
    (json_dumps
       (VDict
          [ ("valid", valid);
            ("steps",
              VList (map (fun step => VDict [("formula", formula step); ("rule", rule step)])
                         steps)) ])) ;;;
  valid <- lift (py_get checker_result "valid" (VBool false)) ;;
  if negb (truthy valid) then
    error <- lift (py_get checker_result "error" VNone) ;;
    (if truthy error then print_err ("Proof checker error: " ++ py_str error)
     else ret tt) ;;;
    ret 1%Z
  else ret 0%Z.

(** Loading the module, then [main] on the parsed arguments. *)
Definition script (args : Namespace) : M Z :=
  lift REQUEST_TIMEOUT ;;; main args.

End Driver.

(** ** A runtime to run the script on

    An instance of [Runtime] for running the definitions above on the
    documents of the examples: a reader and a writer of JSON, [float] on
    decimal numerals, and [str] of values. The reader follows the decoder
    of CPython; it keeps a [float] as the numeral's digits put in the form
    of [repr], which is the [repr] of the float for numerals of up to 15
    significant digits within the range of a double. *)

Module Reference.

Definition ascii_in (a : ascii) (l : list nat) : bool :=
  existsb (Nat.eqb (nat_of_ascii a)) l.

Definition is_digit (a : ascii) : bool :=
  let n := nat_of_ascii a in ((48 <=? n)%nat && (n <=? 57)%nat)%bool.

(** Counting characters, not bytes. *)
Definition after (a : ascii) (pos : nat) : nat :=
  if is_continuation a then pos else S pos.

Fixpoint skip_ws (s : string) (pos : nat) : string * nat :=
  match s with
  | String a r => if ascii_in a [32; 9; 10; 13] then skip_ws r (S pos) else (s, pos)
  | EmptyString => (s, pos)
  end.

(** *** Numbers *)

Fixpoint take_digits (s : string) : string * string :=
  match s with
  | String a r =>
      if is_digit a then let (d, r') := take_digits r in (String a d, r')
      else (EmptyString, s)
  | EmptyString => (EmptyString, s)
  end.

Fixpoint digits_value (s : string) (acc : Z) : Z :=
  match s with
  | String a r => digits_value r (10 * acc + Z.of_nat (nat_of_ascii a - 48))%Z
  | EmptyString => acc
  end.

Fixpoint drop_zeros (s : string) : string :=
  match s with
  | String "0" r => drop_zeros r
  | _ => s
  end.

Definition drop_trailing_zeros (s : string) : string :=
  rev_string (drop_zeros (rev_string s)).

Definition pad2 (s : string) : string :=
  match s with
  | String a EmptyString => String "0" s
  | _ => s
  end.

(** The [repr] of the number [0.d1 d2 ... * 10^point] with sign [neg],
    the digits given with zeros allowed on both ends. *)
Definition float_repr (neg : bool) (digits : string) (point : Z) : string :=
  let sign := if neg then "-" else "" in
  let lead := drop_zeros digits in
  let point := (point - Z.of_nat (String.length digits - String.length lead))%Z in
  let ds := drop_trailing_zeros lead in
  match ds with
  | EmptyString => sign ++ "0.0"
  | String d rest =>
      let n := Z.of_nat (String.length ds) in
      if ((point <=? -4) || (16 <? point))%Z%bool then
        let e := (point - 1)%Z in
        sign ++ String d EmptyString
          ++ (match rest with EmptyString => "" | _ => "." ++ rest end)
          ++ "e" ++ (if (e <? 0)%Z then "-" else "+")
          ++ pad2 (str_int (Z.abs e))
      else if (point <=? 0)%Z then
        sign ++ "0." ++ repeat_string "0" (Z.to_nat (- point)) ++ ds
      else if (n <=? point)%Z then
        sign ++ ds ++ repeat_string "0" (Z.to_nat (point - n)) ++ ".0"
      else
        sign ++ substring 0 (Z.to_nat point) ds ++ "."
          ++ substring (Z.to_nat point) (String.length ds - Z.to_nat point) ds
  end.

(** An exponent part [e] or [E], sign, digits: its value and the rest. *)
Definition take_exponent (s : string) : option (Z * string) :=
  match s with
  | String c r =>
      if ascii_in c [101; 69] then
        let '(neg, r1) :=
          match r with
          | String "-" r1 => (true, r1)
          | String "+" r1 => (false, r1)
          | _ => (false, r)
          end in
        match take_digits r1 with
        | (EmptyString, _) => None
        | (ds, r2) =>
            Some ((if neg then - digits_value ds 0 else digits_value ds 0)%Z, r2)
        end
      else None
  | EmptyString => None
  end.

(** A fraction part: dot, digits. *)
Definition take_fraction (s : string) : option (string * string) :=
  match s with
  | String "." r =>
      match take_digits r with
      | (EmptyString, _) => None
      | (ds, r') => Some (ds, r')
      end
  | _ => None
  end.

(** A JSON number at the head of [s]: the value and the rest. *)
Definition scan_number (s : string) : option (value * string) :=
  let '(neg, s1) :=
    match s with
    | String "-" r => (true, r)
    | _ => (false, s)
    end in
  let int_part :=
    match s1 with
    | String "0" r => Some ("0", r)
    | _ =>
        match take_digits s1 with
        | (EmptyString, _) => None
        | (ds, r) => Some (ds, r)
        end
    end in
  match int_part with
  | None => None
  | Some (ints, s2) =>
      let '(frac, s3) :=
        match take_fraction s2 with
        | Some (ds, r) => (Some ds, r)
        | None => (None, s2)
        end in
      let '(expo, s4) :=
        match take_exponent s3 with
        | Some (e, r) => (Some e, r)
        | None => (None, s3)
        end in
      match frac, expo with
      | None, None =>
          Some (VInt (if neg then - digits_value ints 0 else digits_value ints 0)%Z, s4)
      | _, _ =>
          let fs := match frac with Some ds => ds | None => "" end in
          let e := match expo with Some e => e | None => 0%Z end in
          Some (VFloat (float_repr neg (ints ++ fs) (Z.of_nat (String.length ints) + e)), s4)
      end
  end.

(** *** Strings *)

Definition hex_value (a : ascii) : option N :=
  let n := N_of_ascii a in
  if ((48 <=? n) && (n <=? 57))%N%bool then Some (n - 48)%N
  else if ((97 <=? n) && (n <=? 102))%N%bool then Some (n - 87)%N
  else if ((65 <=? n) && (n <=? 70))%N%bool then Some (n - 55)%N
  else None.

Definition hex4 (a b c d : ascii) : option N :=
  match hex_value a, hex_value b, hex_value c, hex_value d with
  | Some x, Some y, Some z, Some t => Some (((x * 16 + y) * 16 + z) * 16 + t)%N
  | _, _, _, _ => None
  end.

(** The UTF-8 encoding of a code point. *)
Definition utf8 (cp : N) : string :=
  string_of_list_ascii
    (map ascii_of_N
       (if cp <? 128 then [cp]
        else if cp <? 2048 then [192 + cp / 64; 128 + cp mod 64]
        else if cp <? 65536 then
          [224 + cp / 4096; 128 + (cp / 64) mod 64; 128 + cp mod 64]
        else
          [240 + cp / 262144; 128 + (cp / 4096) mod 64;
           128 + (cp / 64) mod 64; 128 + cp mod 64])%N).

Definition simple_escape (a : ascii) : option string :=
  let n := nat_of_ascii a in
  if (n =? 34)%nat then Some dq
  else if (n =? 92)%nat then Some (bytes [92])
  else if (n =? 47)%nat then Some "/"
  else if (n =? 98)%nat then Some (bytes [8])
  else if (n =? 102)%nat then Some (bytes [12])
  else if (n =? 110)%nat then Some nl
  else if (n =? 114)%nat then Some (bytes [13])
  else if (n =? 116)%nat then Some (bytes [9])
  else None.

Inductive scan_error : Type := ScanError (msg : string) (pos : nat).

(** The text of a JSON string after its opening quote at [start]:
    the text, the rest after the closing quote and its position. *)
Fixpoint scan_string (fuel : nat) (start : nat) (acc : string) (s : string) (pos : nat)
    : scan_error + (string * string * nat) :=
  match fuel with
  | O => inl (ScanError "Unterminated string starting at" start)
  | S fuel' =>
      match s with
      | EmptyString => inl (ScanError "Unterminated string starting at" start)
      | String a r =>
          if (nat_of_ascii a =? 34)%nat then inr (acc, r, S pos)
          else if (nat_of_ascii a <? 32)%nat then
            inl (ScanError "Invalid control character at" pos)
          else if (nat_of_ascii a =? 92)%nat then
            match r with
            | EmptyString => inl (ScanError "Unterminated string starting at" start)
            | String "u" (String h1 (String h2 (String h3 (String h4 r')))) =>
                match hex4 h1 h2 h3 h4 with
                | None => inl (ScanError "Invalid \uXXXX escape" (S pos))
                | Some hi =>
                    let single := scan_string fuel' start (acc ++ utf8 hi) r' (pos + 6) in
                    if ((55296 <=? hi) && (hi <=? 56319))%N%bool then
                      match r' with
                      | String b (String "u" (String l1 (String l2 (String l3 (String l4 r''))))) =>
                          if (nat_of_ascii b =? 92)%nat then
                            match hex4 l1 l2 l3 l4 with
                            | None => inl (ScanError "Invalid \uXXXX escape" (pos + 7))
                            | Some lo =>
                                if ((56320 <=? lo) && (lo <=? 57343))%N%bool then
                                  scan_string fuel' start
                                    (acc ++ utf8 (65536 + (hi - 55296) * 1024 + (lo - 56320))%N)
                                    r'' (pos + 12)
                                else single
                            end
                          else single
                      | _ => single
                      end
                    else single
                end
            | String "u" _ => inl (ScanError "Invalid \uXXXX escape" (S pos))
            | String e r' =>
                match simple_escape e with
                | Some t => scan_string fuel' start (acc ++ t) r' (pos + 2)
                | None => inl (ScanError "Invalid \escape" pos)
                end
            end
          else scan_string fuel' start (acc ++ String a EmptyString) r (after a pos)
      end
  end.

(** *** Documents *)

(** [dict(pairs)]: a key given again keeps its place and takes the new
    value. *)
Fixpoint dict_set (entries : list (string * value)) (key : string) (v : value)
    : list (string * value) :=
  match entries with
  | [] => [(key, v)]
  | (k, x) :: entries' =>
      if String.eqb k key then (k, v) :: entries'
      else (k, x) :: dict_set entries' key v
  end.

Definition Scan (A : Type) : Type := (scan_error + (A * string * nat))%type.

Fixpoint scan_once (fuel : nat) (s : string) (pos : nat) : Scan value :=
  match fuel with
  | O => inl (ScanError "Expecting value" pos)
  | S fuel' =>
      match s with
      | EmptyString => inl (ScanError "Expecting value" pos)
      | String a r =>
          if (nat_of_ascii a =? 34)%nat then
            match scan_string (String.length r) pos "" r (S pos) with
            | inl e => inl e
            | inr (t, r', pos') => inr (VStr t, r', pos')
            end
          else if (nat_of_ascii a =? 123)%nat then
            let (r1, pos1) := skip_ws r (S pos) in
            match r1 with
            | String "}" r2 => inr (VDict [], r2, S pos1)
            | _ => scan_members fuel' [] r1 pos1
            end
          else if (nat_of_ascii a =? 91)%nat then
            let (r1, pos1) := skip_ws r (S pos) in
            match r1 with
            | String "]" r2 => inr (VList [], r2, S pos1)
            | _ => scan_items fuel' [] r1 pos1
            end
          else
            match strip_prefix "null" s, strip_prefix "true" s, strip_prefix "false" s with
            | Some r', _, _ => inr (VNone, r', pos + 4)
            | _, Some r', _ => inr (VBool true, r', pos + 4)
            | _, _, Some r' => inr (VBool false, r', pos + 5)
            | None, None, None =>
                match scan_number s with
                | Some (v, r') => inr (v, r', pos + (String.length s - String.length r'))
                | None =>
                    match strip_prefix "NaN" s, strip_prefix "Infinity" s,
                          strip_prefix "-Infinity" s with
                    | Some r', _, _ => inr (VFloat "nan", r', pos + 3)
                    | _, Some r', _ => inr (VFloat "inf", r', pos + 8)
                    | _, _, Some r' => inr (VFloat "-inf", r', pos + 9)
                    | None, None, None => inl (ScanError "Expecting value" pos)
                    end
                end
            end
      end
  end

(** The items of an array from an item on, up to the closing bracket. *)
with scan_items (fuel : nat) (acc : list value) (s : string) (pos : nat) : Scan value :=
  match fuel with
  | O => inl (ScanError "Expecting value" pos)
  | S fuel' =>
      match scan_once fuel' s pos with
      | inl e => inl e
      | inr (v, r, pos1) =>
          let acc := append1 acc v in
          let (r1, pos2) := skip_ws r pos1 in
          match r1 with
          | String "]" r2 => inr (VList acc, r2, S pos2)
          | String "," r2 =>
              let (r3, pos3) := skip_ws r2 (S pos2) in
              scan_items fuel' acc r3 pos3
          | _ => inl (ScanError "Expecting ',' delimiter" pos2)
          end
      end
  end

(** The members of an object from a key on, up to the closing brace. *)
with scan_members (fuel : nat) (acc : list (string * value)) (s : string) (pos : nat)
    : Scan value :=
  match fuel with
  | O => inl (ScanError "Expecting value" pos)
  | S fuel' =>
      match s with
      | String q r =>
          if (nat_of_ascii q =? 34)%nat then
            match scan_string (String.length r) pos "" r (S pos) with
            | inl e => inl e
            | inr (key, r1, pos1) =>
                let (r2, pos2) := skip_ws r1 pos1 in
                match r2 with
                | String ":" r3 =>
                    let (r4, pos4) := skip_ws r3 (S pos2) in
                    match scan_once fuel' r4 pos4 with
                    | inl e => inl e
                    | inr (v, r5, pos5) =>
                        let acc := dict_set acc key v in
                        let (r6, pos6) := skip_ws r5 pos5 in
                        match r6 with
                        | String "}" r7 => inr (VDict acc, r7, S pos6)
                        | String "," r7 =>
                            let (r8, pos8) := skip_ws r7 (S pos6) in
                            scan_members fuel' acc r8 pos8
                        | _ => inl (ScanError "Expecting ',' delimiter" pos6)
                        end
                    end
                | _ => inl (ScanError "Expecting ':' delimiter" pos2)
                end
            end
          else
            inl (ScanError "Expecting property name enclosed in double quotes" pos)
      | EmptyString =>
          inl (ScanError "Expecting property name enclosed in double quotes" pos)
      end
  end.

(** The line and the column of a position, both from 1. *)
Fixpoint line_column (chars : list string) (pos line column : nat) : nat * nat :=
  match pos, chars with
  | S pos', c :: chars' =>
      if String.eqb c nl then line_column chars' pos' (S line) 1
      else line_column chars' pos' line (S column)
  | _, _ => (line, column)
  end.

Definition decode_error (doc : string) (e : scan_error) : exn :=
  match e with
  | ScanError msg pos =>
      let (line, column) := line_column (characters doc) pos 1 1 in
      JSONDecodeError
        (msg ++ ": line " ++ str_nat line ++ " column " ++ str_nat column
           ++ " (char " ++ str_nat pos ++ ")")
  end.

Definition loads (doc : string) : Result value :=
  let (s, pos) := skip_ws doc 0 in
  match scan_once (2 * String.length doc + 2) s pos with
  | inl e => Raise (decode_error doc e)
  | inr (v, r, pos1) =>
      match skip_ws r pos1 with
      | (EmptyString, _) => Ok v
      | (_, pos2) => Raise (decode_error doc (ScanError "Extra data" pos2))
      end
  end.

(** *** Writing *)

Definition hex_digit (n : N) : ascii :=
  if (n <? 10)%N then ascii_of_N (48 + n) else ascii_of_N (87 + n).

Definition u_escape (cp : N) : string :=
  bytes [92; 117]
    ++ string_of_list_ascii
         [ hex_digit (cp / 4096); hex_digit ((cp / 256) mod 16);
           hex_digit ((cp / 16) mod 16); hex_digit (cp mod 16) ]%N.

(** The code point of a one-character text. *)
Definition code_point (c : string) : N :=
  match map N_of_ascii (list_ascii_of_string c) with
  | [a] => a
  | [a; b] => (a - 192) * 64 + (b - 128)
  | [a; b; c] => (a - 224) * 4096 + (b - 128) * 64 + (c - 128)
  | [a; b; c; d] => (a - 240) * 262144 + (b - 128) * 4096 + (c - 128) * 64 + (d - 128)
  | _ => 0
  end%N.

Definition escape_char (c : string) : string :=
  let cp := code_point c in
  if (cp =? 34)%N then bytes [92; 34]
  else if (cp =? 92)%N then bytes [92; 92]
  else if (cp =? 10)%N then bytes [92; 110]
  else if (cp =? 13)%N then bytes [92; 114]
  else if (cp =? 9)%N then bytes [92; 116]
  else if (cp =? 8)%N then bytes [92; 98]
  else if (cp =? 12)%N then bytes [92; 102]
  else if ((32 <=? cp) && (cp <=? 126))%N%bool then c
  else if (cp <? 65536)%N then u_escape cp
  else
    let v := (cp - 65536)%N in
    u_escape (55296 + v / 1024) ++ u_escape (56320 + v mod 1024).

Definition encode_string (s : string) : string :=
  dq ++ String.concat "" (map escape_char (characters s)) ++ dq.

Fixpoint dumps (v : value) : string :=
  match v with
  | VNone => "null"
  | VBool true => "true"
  | VBool false => "false"
  | VInt z => str_int z
  | VFloat r =>
      if String.eqb r "nan" then "NaN"
      else if String.eqb r "inf" then "Infinity"
      else if String.eqb r "-inf" then "-Infinity"
      else r
  | VStr s => encode_string s
  | VList items => "[" ++ join ", " (map dumps items) ++ "]"
  | VDict entries =>
      "{"
        ++ join ", " (map (fun '(k, x) => encode_string k ++ ": " ++ dumps x) entries)
        ++ "}"
  end.

Fixpoint contains_byte (n : nat) (s : string) : bool :=
  match s with
  | String a r => ((nat_of_ascii a =? n)%nat || contains_byte n r)%bool
  | EmptyString => false
  end.

(** [repr(s)] for a text whose characters beyond ASCII are printable. *)
Definition repr_string (s : string) : string :=
  let quote := if (contains_byte 39 s && negb (contains_byte 34 s))%bool then 34 else 39 in
  let escape (a : ascii) : string :=
    let n := nat_of_ascii a in
    if (n =? 92)%nat then bytes [92; 92]
    else if (n =? quote)%nat then bytes [92; quote]
    else if (n =? 10)%nat then bytes [92; 110]
    else if (n =? 13)%nat then bytes [92; 114]
    else if (n =? 9)%nat then bytes [92; 116]
    else if ((n <? 32) || (n =? 127))%nat%bool then
      bytes [92; 120]
        ++ string_of_list_ascii
             [hex_digit (N.of_nat n / 16); hex_digit (N.of_nat n mod 16)]
    else String a EmptyString in
  bytes [quote]
    ++ String.concat "" (map escape (list_ascii_of_string s))
    ++ bytes [quote].

Fixpoint repr (v : value) : string :=
  match v with
  | VNone => "None"
  | VBool true => "True"
  | VBool false => "False"
  | VInt z => str_int z
  | VFloat r => r
  | VStr s => repr_string s
  | VList items => "[" ++ join ", " (map repr items) ++ "]"
  | VDict entries =>
      "{" ++ join ", " (map (fun '(k, x) => repr_string k ++ ": " ++ repr x) entries) ++ "}"
  end.

Definition lower (s : string) : string :=
  string_of_list_ascii
    (map (fun a =>
            let n := nat_of_ascii a in
            if ((65 <=? n) && (n <=? 90))%nat%bool then ascii_of_nat (n + 32) else a)
         (list_ascii_of_string s)).

(** [float(s)] for a decimal numeral without underscores, [inf] and [nan]. *)
Definition float (s : string) : Result value :=
  let failure :=
    Raise (ValueError ("could not convert string to float: " ++ repr_string s)) in
  let '(neg, body) :=
    match strip s with
    | String "-" r => (true, r)
    | String "+" r => (false, r)
    | t => (false, t)
    end in
  let name := lower body in
  if (String.eqb name "inf" || String.eqb name "infinity")%bool then
    Ok (VFloat (if neg then "-inf" else "inf"))
  else if String.eqb name "nan" then Ok (VFloat "nan")
  else
    let (ints, r1) := take_digits body in
    let '(frac, r2) :=
      match r1 with
      | String "." r => take_digits r
      | _ => ("", r1)
      end in
    match ints ++ frac with
    | EmptyString => failure
    | digits =>
        let '(e, r3) :=
          match take_exponent r2 with
          | Some (e, r) => (e, r)
          | None => (0%Z, r2)
          end in
        match r3 with
        | EmptyString =>
            Ok (VFloat (float_repr neg digits (Z.of_nat (String.length ints) + e)))
        | _ => failure
        end
    end.

End Reference.

Definition cpython : Runtime :=
  {| json_loads := Reference.loads;
     json_dumps := Reference.dumps;
     py_float := Reference.float;
     py_repr := Reference.repr |}.

(** ** The words of the specification *)

(** A text in which the separator of the wire format occurs. *)
Fixpoint has_pipe (s : string) : bool :=
  match s with
  | String a r => ((nat_of_ascii a =? 124)%nat || has_pipe r)%bool
  | EmptyString => false
  end.

(** The three kinds of line of the wire format, and the lines of a
    derivation in the order the format gives them. *)
Definition conclusion_line (c : string) : string := "CONCLUSION|" ++ c.
Definition premise_line (p : string) : string := "PREMISE|" ++ p.
Definition step_line (f r : string) : string := "STEP|" ++ f ++ "||" ++ r.

Definition wire_lines (premises : list string) (conclusion : string)
    (steps : list (string * string)) : list string :=
  (conclusion_line conclusion
     :: map premise_line premises
     ++ map (fun fr => step_line (fst fr) (snd fr)) steps)%list.

(** Every text of a derivation: conclusion, premises, then the formula
    and the justification of each step. *)
Definition fields (premises : list string) (conclusion : string)
    (steps : list (string * string)) : list string :=
  (conclusion :: premises ++ flat_map (fun fr => [fst fr; snd fr]) steps)%list.

(** The derivation of the data model, its steps given as pairs of texts. *)
Definition text_steps (steps : list (string * string)) : list ProofStep :=
  map (fun fr => step (fst fr) (snd fr)) steps.

(** A text made of whitespace only. *)
Definition blank (s : string) : bool :=
  forallb (fun c => existsb (String.eqb c) whitespace) (characters s).

(** A value that is a text. *)
Definition is_text (v : value) : bool :=
  match v with
  | VStr _ => true
  | _ => false
  end.

(** The field [key] of a reply, or [default] when the reply has none. *)
Definition field (entries : list (string * value)) (key : string) (default : value) : value :=
  match dict_get entries key with
  | Some v => v
  | None => default
  end.

(** The step the data model makes of a raw item: the formula is required,
    the justification defaults to the empty text. *)
Definition construct (item : value) : Result ProofStep :=
  match item with
  | VDict entries =>
      match dict_get entries "formula", dict_get entries "rule" with
      | None, _ => Raise (KeyError (VStr "formula"))
      | Some f, None => Ok {| formula := f; rule := VStr "" |}
      | Some f, Some r => Ok {| formula := f; rule := r |}
      end
  | _ => Raise TypeError
  end.

(** The steps of a payload text: its [proof_steps], each item made a
    step, in order. *)
Definition steps_of_document `{Runtime} (doc : string) : Result (list ProofStep) :=
  let? parsed := json_loads doc in
  let? proof_steps := getitem parsed "proof_steps" in
  let? items := py_iter proof_steps in
  mapR construct items.

(** The generation backend answers the request of [call_llm] with a body
    whose first choice has the text [doc] as the content of its message. *)
Definition backend_content `{Runtime} (w : World) (model : string) (temperature : value)
    (premises : list string) (conclusion : string) (doc : string) : Prop :=
  exists api_key body reply choices choice message,
    environ w "OPENAI_API_KEY" = Some api_key /\
    api_key <> "" /\
    urlopen w (chat_request w model temperature premises conclusion api_key) (VInt 120)
      = HttpBody body /\
    json_loads body = Ok reply /\
    getitem reply "choices" = Ok choices /\
    getitem_at choices 0 = Ok choice /\
    getitem choice "message" = Ok message /\
    getitem message "content" = Ok (VStr doc).

(** The verifier ran to its end and left [proc]. *)
Definition verifier_ran `{Runtime} (w : World) (premises : list string)
    (conclusion : string) (steps : list ProofStep) (proc : CompletedProcess) : Prop :=
  subprocess_run w (verifier_command w) (payload premises conclusion steps) = Ok proc.

(** ** Worlds to run the script in *)

Module Sample.

(** The environment with the credential alone, and with a timeout too. *)
Definition credential (name : string) : option string :=
  if String.eqb name "OPENAI_API_KEY" then Some "sk-test" else None.

Definition credential_and_timeout (name : string) : option string :=
  if String.eqb name "OPENAI_TIMEOUT" then Some "30" else credential name.

(** A verifier that exits with [code] having written [out] and [err]. *)
Definition verifier (code : Z) (out err : string)
    : list string -> string -> Result CompletedProcess :=
  fun _ _ => Ok {| returncode := code; stdout := out; stderr := err |}.

(** A backend that answers every request with [doc] as the content. *)
Definition backend (doc : string) : Request -> value -> http_reply :=
  fun _ _ =>
    HttpBody
      (Reference.dumps
         (VDict
            [ ("choices",
                VList [VDict [("message", VDict [("content", VStr doc)])]]) ])).

Definition silent : Request -> value -> http_reply :=
  fun _ _ => UrlError "unreachable".

(** The two replies of section 8. *)
Definition accepted : string :=
  "{" ++ dq ++ "valid" ++ dq ++ ": true}".

Definition rejected : string :=
  "{" ++ dq ++ "valid" ++ dq ++ ": false, " ++ dq ++ "error" ++ dq ++ ": "
    ++ dq ++ "line 3 cites unknown reference" ++ dq ++ "}".

(** A payload whose only step is [Q] by [→e 1], with no premise line. *)
Definition one_step : string :=
  Reference.dumps
    (VDict
       [ ("proof_steps",
           VList [VDict [("formula", VStr "Q"); ("rule", VStr "→e 1")]]) ]).

(** A payload with a step that has no justification and an item that has
    no formula. *)
Definition no_rule : string :=
  Reference.dumps (VDict [("proof_steps", VList [VDict [("formula", VStr "P")]])]).

Definition no_formula : string :=
  Reference.dumps (VDict [("proof_steps", VList [VDict [("rule", VStr "Premise")]])]).

(** The world of a run: what is typed in, what the backend and the
    verifier do. *)
Definition world (env : string -> option string) (input : string)
    (generator : Request -> value -> http_reply)
    (checker : list string -> string -> Result CompletedProcess) : World :=
  {| environ := env;
     pathsep := ":";
     stdin := input;
     urlopen := generator;
     subprocess_run := checker |}.

(** The verifier accepts; nothing typed in, no backend. *)
Definition accepting : World :=
  world credential "" silent (verifier 0 (accepted ++ nl) "").

(** The derivation of section 8. *)
Definition modus_ponens : list (string * string) :=
  [("P → Q", "Premise"); ("P", "Premise"); ("Q", "→e 1,2")].

End Sample.

(** ** Further notions *)

(** A text in which a line feed occurs. *)
Fixpoint has_newline (s : string) : bool :=
  match s with
  | String a r => ((nat_of_ascii a =? 10)%nat || has_newline r)%bool
  | EmptyString => false
  end.

(** A derivation whose request can be read back: no text of it holds a
    line feed and no formula of a step holds the separator. *)
Definition readable (premises : list string) (conclusion : string)
    (steps : list (string * string)) : bool :=
  (forallb (fun t => negb (has_newline t)) (fields premises conclusion steps)
   && forallb (fun fr => negb (has_pipe (fst fr))) steps)%bool.

(** The lines of a text, each ended by a line feed. *)
Definition terminated (lines : list string) : string :=
  String.concat "" (map (fun l => l ++ nl) lines).

(** A value that has no length. *)
Definition unsized (v : value) : bool :=
  match v with
  | VNone | VBool _ | VInt _ | VFloat _ => true
  | _ => false
  end.

(** The widths of the columns after a row of texts is taken in. *)
Definition widen (widths : list nat) (row : list string) : list nat :=
  map (fun wc => Nat.max (fst wc) (str_len (snd wc))) (combine widths row).

(** The cells of a row of texts, each filled up to the width of its column. *)
Definition cells (row : list string) (widths : list nat) : list string :=
  map (fun cw => ljust (fst cw) (snd cw)) (combine row widths).

(** The rows of texts that the table of a derivation has. *)
Definition text_rows_of (steps : list (string * string)) (start : nat) : list (list string) :=
  map (fun ix => [str_nat (fst ix); fst (snd ix); snd (snd ix)]) (enumerate start steps).

(** A text that begins with a character. *)
Definition well_begun (s : string) : bool := negb (starts_inside s).

(** The kinds of event. *)
Definition is_request (e : event) : bool :=
  match e with
  | Urlopen _ _ => true
  | _ => false
  end.

Definition is_run (e : event) : bool :=
  match e with
  | SubprocessRun _ _ => true
  | _ => false
  end.

Definition is_print (e : event) : bool :=
  match e with
  | Print _ _ => true
  | _ => false
  end.

(** How [main] obtains the steps. *)
Definition obtain_steps `{Runtime} (w : World) (args : Namespace) : M (list ProofStep) :=
  if dry_run args then load_steps_from_stdin w
  else call_llm w (model args) (temperature args) (premise args) (conclusion args).

(** The summary [main] prints after the table. *)
Definition summary `{Runtime} (valid : value) (steps : list ProofStep) : string :=
  json_dumps
    (VDict
       [ ("valid", valid);
         ("steps",
           VList (map (fun step => VDict [("formula", formula step); ("rule", rule step)])
                      steps)) ]).

(** The lines of the prompt: the heading, the premises numbered from 1 or
    the word that there are none, the conclusion and the two requests. *)
Definition prompt_lines (premises : list string) (conclusion : string) : list string :=
  ["Find a proof that derives the conclusion from the premises."]
    ++ match premises with
       | [] => ["No premises (empty context)."]
       | _ :: _ =>
           "Premises:"
             :: map (fun ip => "  " ++ str_nat (fst ip) ++ ". " ++ snd ip)%string
                  (enumerate 1 premises)
       end
    ++ [ ("Conclusion: " ++ conclusion)%string;
         "";
         "Return a complete sequence of proof lines, including the premises as the first lines.";
         "Ensure references match line numbers starting at 1." ].

Definition on_stdout (e : event) : bool :=
  match e with
  | Print Stdout _ => true
  | _ => false
  end.

(** Running a computation one step on. *)
Ltac run :=
  cbn [outcome trace lift print print_err emit ret fst snd]; unfold Ok; cbv beta iota.

(** Showing that a sample backend answers with a given content. *)
Ltac backend_replies :=
  unfold backend_content; do 6 eexists;
  split; [reflexivity |];
  split; [discriminate |];
  split; [reflexivity |];
  split; [reflexivity |];
  split; [reflexivity |];
  split; [reflexivity |];
  split; reflexivity.

(** ** Properties *)

(** *** Text *)

Lemma append_nil_r : forall s : string, s ++ "" = s.
Proof. induction s as [| a s IH]; simpl; [reflexivity | now rewrite IH]. Qed.

Lemma append_assoc : forall a b c : string, (a ++ b) ++ c = a ++ b ++ c.
Proof. induction a as [| x a IH]; intros b c; simpl; [reflexivity | now rewrite IH]. Qed.

Lemma concat_cons : forall (x : string) (l : list string),
  String.concat "" (x :: l) = x ++ String.concat "" l.
Proof.
  intros x [| y l]; simpl; [now rewrite append_nil_r | reflexivity].
Qed.

Lemma characters_nil : forall s, characters s = [] -> s = "".
Proof.
  intros [| a r]; [reflexivity |]; simpl.
  destruct (characters r) as [| c cs]; [discriminate |].
  now destruct (starts_inside r).
Qed.

Lemma concat_characters : forall s, String.concat "" (characters s) = s.
Proof.
  induction s as [| a r IH]; [reflexivity |].
  cbn [characters]. destruct (characters r) as [| c cs] eqn:E.
  - apply characters_nil in E; subst r; reflexivity.
  - rewrite concat_cons in IH.
    destruct (starts_inside r); rewrite !concat_cons.
    + cbn [append]. now rewrite IH.
    + cbn [append]. now rewrite IH.
Qed.

(** A whitespace character in front of a text that begins with a
    character is the first character of the whole. *)
Lemma characters_whitespace : forall t r,
  In t whitespace -> starts_inside r = false ->
  characters (t ++ r) = t :: characters r.
Proof.
  intros t r Hin Hr. unfold whitespace in Hin; simpl in Hin.
  repeat (destruct Hin as [<- | Hin];
          [ cbn [bytes map string_of_list_ascii append characters];
            rewrite Hr; destruct (characters r); reflexivity |]).
  contradiction.
Qed.
Lemma strip_prefix_app : forall p s r, strip_prefix p s = Some r -> s = p ++ r.
Proof.
  induction p as [| a p IH]; intros s r; simpl.
  - now intros [= ->].
  - destruct s as [| b s]; [discriminate |].
    destruct (Ascii.eqb_spec a b) as [-> |]; [| discriminate].
    intros Hs; now rewrite (IH _ _ Hs).
Qed.

Lemma drop_one_app : forall tokens s r,
  drop_one tokens s = Some r -> exists t, In t tokens /\ s = t ++ r.
Proof.
  induction tokens as [| t tokens IH]; intros s r; simpl; [discriminate |].
  destruct (strip_prefix t s) as [r' |] eqn:E.
  - intros [= ->]; exists t; split; [now left | now apply strip_prefix_app].
  - intros Hs; destruct (IH _ _ Hs) as (t' & Hin & ->); exists t'; split; [now right | reflexivity].
Qed.

(** What [drop_while] removes is a run of tokens. *)
Lemma drop_while_app : forall tokens fuel s,
  exists ts, Forall (fun t => In t tokens) ts
             /\ s = String.concat "" ts ++ drop_while tokens fuel s.
Proof.
  intros tokens; induction fuel as [| fuel IH]; intros s; simpl.
  - exists []; split; [constructor | reflexivity].
  - destruct (drop_one tokens s) as [r |] eqn:E.
    + destruct (drop_one_app _ _ _ E) as (t & Hin & ->).
      destruct (IH r) as (ts & Hts & Hr).
      exists (t :: ts); split; [now constructor |].
      rewrite concat_cons, append_assoc. now rewrite <- Hr.
    + exists []; split; [constructor | reflexivity].
Qed.

Lemma drop_one_whitespace : forall c rest,
  In c whitespace -> drop_one whitespace (c ++ rest) = Some rest.
Proof.
  intros c rest Hin. unfold whitespace in Hin; simpl in Hin.
  repeat (destruct Hin as [<- | Hin]; [reflexivity |]). contradiction.
Qed.

Lemma whitespace_starts : forall t r, In t whitespace -> starts_inside (t ++ r) = false.
Proof.
  intros t r Hin. unfold whitespace in Hin; simpl in Hin.
  repeat (destruct Hin as [<- | Hin]; [reflexivity |]). contradiction.
Qed.

Lemma tokens_start : forall ts,
  Forall (fun t => In t whitespace) ts -> starts_inside (String.concat "" ts) = false.
Proof.
  intros ts Hts; destruct Hts as [| t ts Ht Hts]; [reflexivity |].
  rewrite concat_cons. now apply whitespace_starts.
Qed.

Lemma characters_tokens : forall ts,
  Forall (fun t => In t whitespace) ts -> characters (String.concat "" ts) = ts.
Proof.
  induction 1 as [| t ts Ht Hts IH]; [reflexivity |].
  rewrite concat_cons, characters_whitespace, IH by (assumption || now apply tokens_start).
  reflexivity.
Qed.

Lemma is_whitespace_In : forall c,
  existsb (String.eqb c) whitespace = true <-> In c whitespace.
Proof.
  intros c; rewrite existsb_exists; split.
  - intros (t & Hin & Heq). apply String.eqb_eq in Heq. now subst.
  - intros Hin; exists c; split; [assumption | apply String.eqb_refl].
Qed.

Lemma blank_characters : forall s,
  blank s = true <-> Forall (fun t => In t whitespace) (characters s).
Proof.
  intros s; unfold blank; rewrite forallb_forall, Forall_forall.
  split; intros Hs c Hc; apply is_whitespace_In; now apply Hs.
Qed.

Lemma blank_tokens : forall ts,
  Forall (fun t => In t whitespace) ts -> blank (String.concat "" ts) = true.
Proof.
  intros ts Hts; apply blank_characters. now rewrite characters_tokens.
Qed.

Lemma characters_length : forall s, (List.length (characters s) <= String.length s)%nat.
Proof.
  induction s as [| a r IH]; [apply le_n |]; cbn [characters String.length].
  destruct (characters r) as [| c cs]; [simpl; lia |].
  destruct (starts_inside r); simpl in *; lia.
Qed.

Lemma drop_while_tokens : forall ts fuel,
  Forall (fun t => In t whitespace) ts -> (List.length ts <= fuel)%nat ->
  drop_while whitespace fuel (String.concat "" ts) = "".
Proof.
  induction ts as [| t ts IH]; intros fuel Hts Hfuel.
  - destruct fuel; reflexivity.
  - inversion Hts as [| ? ? Ht Hts']; subst.
    destruct fuel as [| fuel]; [simpl in Hfuel; lia |].
    rewrite concat_cons; cbn [drop_while].
    rewrite drop_one_whitespace by assumption.
    apply IH; [assumption | simpl in Hfuel; lia].
Qed.

Lemma lstrip_blank : forall s, blank s = true -> lstrip s = "".
Proof.
  intros s Hs; apply blank_characters in Hs; unfold lstrip.
  rewrite <- (concat_characters s) at 2.
  apply drop_while_tokens; [assumption | apply characters_length].
Qed.

(** A text of whitespace only strips to the empty text. *)
Lemma strip_blank : forall s, blank s = true -> strip s = "".
Proof.
  intros s Hs; unfold strip; now rewrite lstrip_blank.
Qed.

Lemma list_ascii_app : forall a b,
  list_ascii_of_string (a ++ b) = (list_ascii_of_string a ++ list_ascii_of_string b)%list.
Proof.
  induction a as [| x a IH]; intros b; simpl; [reflexivity | now rewrite IH].
Qed.

Lemma string_of_list_app : forall l m,
  string_of_list_ascii (l ++ m)%list = string_of_list_ascii l ++ string_of_list_ascii m.
Proof.
  induction l as [| x l IH]; intros m; simpl; [reflexivity | now rewrite IH].
Qed.

Lemma rev_string_app : forall a b, rev_string (a ++ b) = rev_string b ++ rev_string a.
Proof.
  intros a b; unfold rev_string.
  now rewrite list_ascii_app, rev_app_distr, string_of_list_app.
Qed.

Lemma rev_string_involutive : forall s, rev_string (rev_string s) = s.
Proof.
  intros s; unfold rev_string.
  now rewrite list_ascii_of_string_of_list_ascii, rev_involutive,
    string_of_list_ascii_of_string.
Qed.

Lemma concat_app : forall l m : list string,
  String.concat "" (l ++ m)%list = String.concat "" l ++ String.concat "" m.
Proof.
  induction l as [| x l IH]; intros m; [reflexivity |].
  change ((x :: l) ++ m)%list with (x :: (l ++ m))%list.
  now rewrite !concat_cons, IH, append_assoc.
Qed.

Lemma rev_string_concat : forall ts,
  rev_string (String.concat "" ts) = String.concat "" (map rev_string (rev ts)).
Proof.
  induction ts as [| t ts IH]; [reflexivity |].
  rewrite concat_cons, rev_string_app, IH; cbn [rev].
  rewrite map_app, concat_app; cbn [map]. now rewrite concat_cons, append_nil_r.
Qed.

(** What [lstrip] and [rstrip] remove is whitespace. *)
Lemma lstrip_app : forall s,
  exists a, blank a = true /\ s = a ++ lstrip s.
Proof.
  intros s; destruct (drop_while_app whitespace (String.length s) s) as (ts & Hts & Hs).
  exists (String.concat "" ts); split; [now apply blank_tokens | exact Hs].
Qed.

Lemma rstrip_app : forall s,
  exists b, blank b = true /\ s = rstrip s ++ b.
Proof.
  intros s.
  destruct (drop_while_app (map rev_string whitespace) (String.length s) (rev_string s))
    as (ts & Hts & Hs).
  exists (String.concat "" (map rev_string (rev ts))); split.
  - apply blank_tokens. apply Forall_map, Forall_rev.
    eapply Forall_impl; [| exact Hts]. intros t Ht; cbv beta in *.
    apply in_map_iff in Ht as (t' & <- & Ht'). now rewrite rev_string_involutive.
  - unfold rstrip. rewrite <- rev_string_concat, <- rev_string_app, <- Hs.
    now rewrite rev_string_involutive.
Qed.

(** [strip] takes whitespace off both ends of a text and nothing else. *)
Lemma strip_app : forall s,
  exists a b, blank a = true /\ blank b = true /\ s = a ++ strip s ++ b.
Proof.
  intros s; destruct (lstrip_app s) as (a & Ha & Hs).
  destruct (rstrip_app (lstrip s)) as (b & Hb & Hl).
  exists a, b; repeat split; try assumption.
  unfold strip; now rewrite <- Hl.
Qed.

Lemma blank_app : forall a b, blank a = true -> blank b = true -> blank (a ++ b) = true.
Proof.
  intros a b Ha Hb; apply blank_characters in Ha, Hb.
  rewrite <- (concat_characters a), <- (concat_characters b), <- concat_app.
  apply blank_tokens, Forall_app; now split.
Qed.

(** The texts that strip to the empty text are those of whitespace only. *)
Lemma strip_empty_iff : forall s, strip s = "" <-> blank s = true.
Proof.
  intros s; split; [| apply strip_blank].
  intros Hs; destruct (strip_app s) as (a & b & Ha & Hb & Heq).
  rewrite Hs in Heq; cbn [append] in Heq; rewrite Heq. now apply blank_app.
Qed.

Section Properties.

Context `{Runtime}.

(** *** Lists, results and computations *)

Lemma fold_left_append1 :
  forall (A B : Type) (f : A -> B) (l : list A) (init : list B),
    fold_left (fun acc x => append1 acc (f x)) l init = (init ++ map f l)%list.
Proof.
  intros A B f l; induction l as [| x l IH]; intros init; simpl.
  - now rewrite app_nil_r.
  - rewrite IH; unfold append1; now rewrite <- app_assoc.
Qed.

Lemma outcome_bind :
  forall (A B : Type) (m : M A) (k : A -> M B),
    outcome (bind m k)
    = match outcome m with
      | inl e => inl e
      | inr a => outcome (k a)
      end.
Proof.
  intros A B [[e | a] t] k; unfold outcome, bind; simpl; [reflexivity |].
  now destruct (k a).
Qed.

Lemma trace_bind :
  forall (A B : Type) (m : M A) (k : A -> M B),
    trace (bind m k)
    = match outcome m with
      | inl _ => trace m
      | inr a => (trace m ++ trace (k a))%list
      end.
Proof.
  intros A B [[e | a] t] k; unfold trace, outcome, bind; simpl; [reflexivity |].
  now destruct (k a).
Qed.

(** *** The request *)

(** The lines of the request, one after the other. *)
Lemma payload_lines_eq :
  forall premises conclusion steps,
    payload_lines premises conclusion steps
    = (conclusion_line conclusion
         :: map premise_line premises
         ++ map (fun s => step_line (py_str (formula s)) (py_str (rule s))) steps)%list.
Proof.
  intros premises conclusion steps.
  unfold payload_lines, conclusion_line, premise_line, step_line.
  rewrite (fold_left_append1 _ _ (fun premise => "PREMISE|" ++ premise)).
  rewrite (fold_left_append1 _ _
             (fun s => "STEP|" ++ py_str (formula s) ++ "||" ++ py_str (rule s))).
  reflexivity.
Qed.

Lemma payload_lines_text :
  forall premises conclusion (steps : list (string * string)),
    payload_lines premises conclusion (text_steps steps)
    = wire_lines premises conclusion steps.
Proof.
  intros premises conclusion steps; rewrite payload_lines_eq.
  unfold wire_lines, text_steps; now rewrite map_map.
Qed.

(** A line that begins with [S] is not a premise line. *)
Lemma no_premise_line_among_steps :
  forall steps : list (string * string),
    filter (String.prefix "PREMISE|")
      (map (fun fr => step_line (fst fr) (snd fr)) steps) = [].
Proof.
  induction steps as [| fr steps IH]; simpl; [reflexivity | exact IH].
Qed.

(** C1. The request is the line [CONCLUSION|<conclusion>], then a line
    [PREMISE|<p>] for each premise in order, then a line
    [STEP|<formula>||<justification>] for each step in order, joined by
    line feeds and ended by one. The derivation of section 8 gives the six
    lines shown there. Without premises the request has the conclusion
    line and no premise line. *)
Theorem request_encoding :
  (forall premises conclusion (steps : list (string * string)),
      payload premises conclusion (text_steps steps)
      = join nl (wire_lines premises conclusion steps) ++ nl)
  /\ payload ["P → Q"; "P"] "Q" (text_steps Sample.modus_ponens)
     = "CONCLUSION|Q" ++ nl
         ++ "PREMISE|P → Q" ++ nl
         ++ "PREMISE|P" ++ nl
         ++ "STEP|P → Q||Premise" ++ nl
         ++ "STEP|P||Premise" ++ nl
         ++ "STEP|Q||→e 1,2" ++ nl
  /\ (forall conclusion (steps : list (string * string)),
        payload_lines [] conclusion (text_steps steps)
        = conclusion_line conclusion :: map (fun fr => step_line (fst fr) (snd fr)) steps
        /\ filter (String.prefix "PREMISE|")
             (payload_lines [] conclusion (text_steps steps)) = [])
  /\ payload [] "P ∨ ¬P" [] = "CONCLUSION|P ∨ ¬P" ++ nl.
Proof.
  split; [| split; [| split]].
  - intros premises conclusion steps; unfold payload.
    now rewrite payload_lines_text.
  - unfold payload; rewrite payload_lines_text; reflexivity.
  - intros conclusion steps; rewrite payload_lines_text; unfold wire_lines; simpl.
    split; [reflexivity |].
    now rewrite no_premise_line_among_steps.
  - reflexivity.
Qed.

(** *** The verifier *)

(** The one thing [call_proof_checker] does is to run the verifier on
    the request, whatever the request holds. *)
Lemma call_proof_checker_trace :
  forall w premises conclusion steps,
    trace (call_proof_checker w premises conclusion steps)
    = [SubprocessRun (verifier_command w) (payload premises conclusion steps)].
Proof.
  intros w premises conclusion steps.
  unfold call_proof_checker, trace, bind, emit, lift, raise, ret.
  destruct (subprocess_run w _ _) as [e | proc]; [reflexivity |].
  destruct (negb _); [reflexivity |].
  destruct (String.eqb _ _); [reflexivity |].
  destruct (json_loads _) as [[] | v]; reflexivity.
Qed.

(** How [call_proof_checker] ends once the verifier has run. *)
Lemma call_proof_checker_outcome :
  forall w premises conclusion steps proc,
    verifier_ran w premises conclusion steps proc ->
    outcome (call_proof_checker w premises conclusion steps)
    = if negb (returncode proc =? 0)%Z then
        Raise (RuntimeError
                 ("Proof verifier exited with code " ++ str_int (returncode proc)
                    ++ ": " ++ strip (stderr proc)))
      else if String.eqb (strip (stdout proc)) "" then
        Raise (RuntimeError "Proof verifier produced no output.")
      else
        match json_loads (strip (stdout proc)) with
        | inr v => Ok v
        | inl (JSONDecodeError err) =>
            Raise (RuntimeError
                     ("Failed to parse verifier output '" ++ strip (stdout proc)
                        ++ "': " ++ err))
        | inl e => Raise e
        end.
Proof.
  intros w premises conclusion steps proc Hran.
  unfold verifier_ran in Hran.
  unfold call_proof_checker, outcome, bind, emit, lift, raise, ret.
  rewrite Hran; unfold Ok, Raise; cbv beta iota.
  destruct (negb _); [reflexivity |].
  destruct (String.eqb _ _); [reflexivity |].
  destruct (json_loads _) as [[] | v]; reflexivity.
Qed.

(** C2, as the script has it. A derivation in which a formula or a
    justification holds the separator [|] is encoded like any other:
    no error is raised, the request with every field as it is given is
    what the verifier is run on. *)
Theorem separators_are_sent_as_given :
  forall w premises conclusion (steps : list (string * string)),
    existsb has_pipe (fields premises conclusion steps) = true ->
    payload premises conclusion (text_steps steps)
    = join nl (wire_lines premises conclusion steps) ++ nl
    /\ trace (call_proof_checker w premises conclusion (text_steps steps))
       = [SubprocessRun (verifier_command w)
            (join nl (wire_lines premises conclusion steps) ++ nl)].
Proof.
  intros w premises conclusion steps _.
  assert (Hp : payload premises conclusion (text_steps steps)
               = join nl (wire_lines premises conclusion steps) ++ nl)
    by (unfold payload; now rewrite payload_lines_text).
  split; [exact Hp |].
  now rewrite call_proof_checker_trace, Hp.
Qed.

(** C3. When the verifier exits with a status other than zero,
    [call_proof_checker] raises the error that names the status and
    carries the diagnostic stream (what the verifier wrote there, less the
    whitespace at its two ends), whatever the verifier wrote on its output;
    it returns no verdict. *)
Theorem nonzero_exit_raises :
  forall w premises conclusion steps proc,
    verifier_ran w premises conclusion steps proc ->
    returncode proc <> 0%Z ->
    (exists lead trail,
        blank lead = true /\ blank trail = true
        /\ stderr proc = lead ++ strip (stderr proc) ++ trail)
    /\ outcome (call_proof_checker w premises conclusion steps)
       = Raise (RuntimeError
                  ("Proof verifier exited with code " ++ str_int (returncode proc)
                     ++ ": " ++ strip (stderr proc)))
    /\ forall verdict,
         outcome (call_proof_checker w premises conclusion steps) <> Ok verdict.
Proof.
  intros w premises conclusion steps proc Hran Hcode.
  split; [apply strip_app |].
  rewrite (call_proof_checker_outcome _ _ _ _ _ Hran).
  apply Z.eqb_neq in Hcode; rewrite Hcode; cbn [negb].
  split; [reflexivity | discriminate].
Qed.

(** C4. When the verifier exits with status zero and its output is
    empty or whitespace only, [call_proof_checker] raises the error of
    no output; it returns no verdict, so none with [valid] false. *)
Theorem empty_output_raises :
  forall w premises conclusion steps proc,
    verifier_ran w premises conclusion steps proc ->
    returncode proc = 0%Z ->
    blank (stdout proc) = true ->
    outcome (call_proof_checker w premises conclusion steps)
    = Raise (RuntimeError "Proof verifier produced no output.")
    /\ forall verdict,
         outcome (call_proof_checker w premises conclusion steps) <> Ok verdict.
Proof.
  intros w premises conclusion steps proc Hran Hcode Hblank.
  rewrite (call_proof_checker_outcome _ _ _ _ _ Hran).
  rewrite Hcode, (strip_blank _ Hblank); cbn [Z.eqb negb String.eqb].
  split; [reflexivity | discriminate].
Qed.

(** C5. When the verifier exits with status zero and its output, not
    blank, cannot be parsed, [call_proof_checker] raises the error of a
    failed parse, which carries the output (the text the verifier wrote,
    less the whitespace at its two ends); it returns no verdict. *)
Theorem unparseable_output_raises :
  forall w premises conclusion steps proc err,
    verifier_ran w premises conclusion steps proc ->
    returncode proc = 0%Z ->
    blank (stdout proc) = false ->
    json_loads (strip (stdout proc)) = Raise (JSONDecodeError err) ->
    (exists lead trail,
        blank lead = true /\ blank trail = true
        /\ stdout proc = lead ++ strip (stdout proc) ++ trail)
    /\ outcome (call_proof_checker w premises conclusion steps)
       = Raise (RuntimeError
                  ("Failed to parse verifier output '" ++ strip (stdout proc)
                     ++ "': " ++ err))
    /\ forall verdict,
         outcome (call_proof_checker w premises conclusion steps) <> Ok verdict.
Proof.
  intros w premises conclusion steps proc err Hran Hcode Hblank Hparse.
  split; [apply strip_app |].
  rewrite (call_proof_checker_outcome _ _ _ _ _ Hran), Hcode; cbn [Z.eqb negb].
  destruct (String.eqb_spec (strip (stdout proc)) "") as [Hempty | _].
  - apply strip_empty_iff in Hempty; congruence.
  - rewrite Hparse; split; [reflexivity | discriminate].
Qed.

(** *** The table and the report *)

Lemma mapR_total :
  forall (A B : Type) (f : A -> Result B) (l : list A),
    Forall (fun x => exists y, f x = Ok y) l -> exists ys, mapR f l = Ok ys.
Proof.
  intros A B f l Hl; induction Hl as [| x l (y & Hy) _ (ys & Hys)]; simpl.
  - now exists [].
  - rewrite Hy, Hys; now exists (y :: ys).
Qed.

Lemma Forall_combine_l :
  forall (A B : Type) (P : A -> Prop) (l : list A) (m : list B),
    Forall P l -> Forall (fun ab => P (fst ab)) (combine l m).
Proof.
  intros A B P l m Hl; revert m; induction Hl as [| x l Hx _ IH]; intros [| y m];
    simpl; constructor; auto.
Qed.

Lemma Forall_combine_r :
  forall (A B : Type) (P : B -> Prop) (l : list A) (m : list B),
    Forall P m -> Forall (fun ab => P (snd ab)) (combine l m).
Proof.
  intros A B P l m Hm; revert l; induction Hm as [| y m Hy _ IH]; intros [| x l];
    simpl; constructor; auto.
Qed.

Lemma widen_total :
  forall (widths : list nat) (row : list value),
    Forall (fun v => is_text v = true) row ->
    exists ws,
      mapR (fun wc => let? n := py_len (snd wc) in Ok (Nat.max (fst wc) n))
        (combine widths row) = Ok ws.
Proof.
  intros widths row Hrow; apply mapR_total.
  eapply Forall_impl; [| apply Forall_combine_r, Hrow].
  intros [wd [| | | | s | |]] Hv; try discriminate. now eexists.
Qed.

Lemma widths_total :
  forall (rows : list (list value)) (widths : list nat),
    Forall (Forall (fun v => is_text v = true)) rows ->
    exists ws,
      fold_left
        (fun acc row =>
           let? widths := acc in
           mapR (fun wc => let? n := py_len (snd wc) in Ok (Nat.max (fst wc) n))
             (combine widths row))
        rows (Ok widths) = Ok ws.
Proof.
  intros rows widths Hrows; revert widths.
  induction Hrows as [| row rows Hrow _ IH]; intros widths; simpl.
  - now exists widths.
  - destruct (widen_total widths row Hrow) as (ws & Hws).
    unfold Ok in *; rewrite Hws. apply IH.
Qed.

Lemma format_row_total :
  forall (widths : list nat) (row : list value),
    Forall (fun v => is_text v = true) row ->
    exists line,
      (let? cells := mapR (fun cw => py_ljust (fst cw) (snd cw)) (combine row widths) in
       Ok (join "  " cells)) = Ok line.
Proof.
  intros widths row Hrow.
  destruct (mapR_total _ _ (fun cw => py_ljust (fst cw) (snd cw)) (combine row widths))
    as (cells & Hcells).
  - eapply Forall_impl; [| apply Forall_combine_l, Hrow].
    intros [[| | | | s | |] wd] Hv; try discriminate. now eexists.
  - rewrite Hcells; now eexists.
Qed.

Lemma text_rows :
  forall (steps : list (string * string)) (start : nat),
    Forall (Forall (fun v => is_text v = true))
      (map (fun ix => [VStr (str_nat (fst ix)); formula (snd ix); rule (snd ix)])
         (enumerate start (text_steps steps))).
Proof.
  induction steps as [| fr steps IH]; intros start; simpl; constructor.
  - repeat constructor.
  - apply IH.
Qed.

Lemma print_rows_total :
  forall (widths : list nat) (rows : list (list value)),
    Forall (Forall (fun v => is_text v = true)) rows ->
    outcome
      (forM rows
         (fun row =>
            line <-
              lift
                (let? cells :=
                   mapR (fun cw => py_ljust (fst cw) (snd cw)) (combine row widths) in
                 Ok (join "  " cells)) ;;
            print line))
    = Ok tt.
Proof.
  intros widths rows Hrows; induction Hrows as [| row rows Hrow _ IH]; [reflexivity |].
  cbn [forM]; rewrite outcome_bind.
  destruct (format_row_total widths row Hrow) as (line & Hline).
  rewrite outcome_bind; cbn [outcome lift fst]; unfold Ok in *; rewrite Hline.
  cbn [print emit fst]; exact IH.
Qed.

Lemma print_table_text :
  forall steps : list (string * string),
    outcome (print_table (text_steps steps)) = Ok tt.
Proof.
  intros steps; unfold print_table.
  set (rows := map _ (enumerate 1 (text_steps steps))).
  assert (Hrows : Forall (Forall (fun v => is_text v = true)) rows) by apply text_rows.
  rewrite outcome_bind; cbn [outcome lift fst mapR py_len rbind Ok].
  destruct (widths_total rows [str_len "Step"; str_len "Formula"; str_len "Justification"] Hrows)
    as (ws & Hws).
  rewrite outcome_bind; cbn [outcome lift fst]; unfold Ok in *; rewrite Hws.
  destruct (format_row_total ws [VStr "Step"; VStr "Formula"; VStr "Justification"])
    as (line & Hline); [repeat constructor |].
  rewrite outcome_bind; cbn [outcome lift fst]; unfold Ok in *; rewrite Hline.
  rewrite outcome_bind; cbn [outcome print emit fst].
  rewrite outcome_bind; cbn [outcome print emit fst].
  now apply print_rows_total.
Qed.

Lemma py_get_field : forall entries key default,
  py_get (VDict entries) key default = Ok (field entries key default).
Proof. intros; unfold py_get, field; now destruct (dict_get entries key). Qed.

Lemma main_outcome :
  forall w args (steps : list (string * string)) entries,
    outcome
      (if dry_run args then load_steps_from_stdin w
       else call_llm w (model args) (temperature args) (premise args) (conclusion args))
    = Ok (text_steps steps) ->
    outcome (call_proof_checker w (premise args) (conclusion args) (text_steps steps))
    = Ok (VDict entries) ->
    outcome (main w args)
    = Ok (if truthy (field entries "valid" (VBool false)) then 0%Z else 1%Z).
Proof.
  intros w args steps entries Hsteps Hverdict; unfold main.
  rewrite outcome_bind, Hsteps; run.
  rewrite outcome_bind, Hverdict; run.
  rewrite outcome_bind, print_table_text; run.
  rewrite outcome_bind; run.
  rewrite outcome_bind, ?py_get_field; run.
  rewrite outcome_bind; run.
  rewrite outcome_bind, ?py_get_field; run.
  destruct (truthy (field entries "valid" (VBool false))); cbn [negb]; [reflexivity |].
  rewrite outcome_bind, ?py_get_field; run.
  rewrite outcome_bind.
  now destruct (truthy (field entries "error" VNone)).
Qed.

Lemma main_reports_error :
  forall w args (steps : list (string * string)) entries,
    outcome
      (if dry_run args then load_steps_from_stdin w
       else call_llm w (model args) (temperature args) (premise args) (conclusion args))
    = Ok (text_steps steps) ->
    outcome (call_proof_checker w (premise args) (conclusion args) (text_steps steps))
    = Ok (VDict entries) ->
    truthy (field entries "valid" (VBool false)) = false ->
    truthy (field entries "error" VNone) = true ->
    In (Print Stderr ("Proof checker error: " ++ py_str (field entries "error" VNone)))
       (trace (main w args)).
Proof.
  intros w args steps entries Hsteps Hverdict Hvalid Herror; unfold main.
  rewrite trace_bind, Hsteps; run. apply in_or_app; right.
  rewrite trace_bind, Hverdict; run. apply in_or_app; right.
  rewrite trace_bind, print_table_text; run. apply in_or_app; right.
  rewrite trace_bind; run. apply in_or_app; right.
  rewrite trace_bind, ?py_get_field; run. apply in_or_app; right.
  rewrite trace_bind; run. apply in_or_app; right.
  rewrite trace_bind, ?py_get_field; run. apply in_or_app; right.
  rewrite Hvalid; cbn [negb].
  rewrite trace_bind, ?py_get_field; run. apply in_or_app; right.
  rewrite Herror, trace_bind; run.
  now left.
Qed.
(** C6. When the verifier exits with status zero and its output parses
    to an object, [call_proof_checker] returns that object: reading
    [valid] from it with the default [False], as [main] does, gives the
    field of the reply, or [False] when the reply has none; reading
    [error] gives the field of the reply as it is, or [None]. [main] then
    returns 0 when that [valid] is true and 1 when it is not, and in that
    case prints the error as it is on the diagnostic stream. With the
    decoder of the reference runtime, the reply [{"valid": true}] gives
    [True] and no error, and the reply with [valid] false and an error
    text gives [False] and that text. *)
Theorem reply_is_read_as_given :
  (forall w premises conclusion steps proc entries,
      verifier_ran w premises conclusion steps proc ->
      returncode proc = 0%Z ->
      blank (stdout proc) = false ->
      json_loads (strip (stdout proc)) = Ok (VDict entries) ->
      exists verdict,
        outcome (call_proof_checker w premises conclusion steps) = Ok verdict
        /\ py_get verdict "valid" (VBool false) = Ok (field entries "valid" (VBool false))
        /\ py_get verdict "error" VNone = Ok (field entries "error" VNone))
  /\ (forall w args (steps : list (string * string)) entries,
        outcome
          (if dry_run args then load_steps_from_stdin w
           else call_llm w (model args) (temperature args) (premise args) (conclusion args))
        = Ok (text_steps steps) ->
        outcome (call_proof_checker w (premise args) (conclusion args) (text_steps steps))
        = Ok (VDict entries) ->
        outcome (main w args)
        = Ok (if truthy (field entries "valid" (VBool false)) then 0%Z else 1%Z)
        /\ (truthy (field entries "valid" (VBool false)) = false ->
            truthy (field entries "error" VNone) = true ->
            In (Print Stderr
                  ("Proof checker error: " ++ py_str (field entries "error" VNone)))
               (trace (main w args))))
  /\ (forall premises conclusion steps,
        exists verdict,
          outcome
            (@call_proof_checker cpython
               (Sample.world Sample.credential "" Sample.silent
                  (Sample.verifier 0 (Sample.accepted ++ nl) ""))
               premises conclusion steps) = Ok verdict
          /\ py_get verdict "valid" (VBool false) = Ok (VBool true)
          /\ py_get verdict "error" VNone = Ok VNone)
  /\ (forall premises conclusion steps,
        exists verdict,
          outcome
            (@call_proof_checker cpython
               (Sample.world Sample.credential "" Sample.silent
                  (Sample.verifier 0 (Sample.rejected ++ nl) ""))
               premises conclusion steps) = Ok verdict
          /\ py_get verdict "valid" (VBool false) = Ok (VBool false)
          /\ py_get verdict "error" VNone
             = Ok (VStr "line 3 cites unknown reference")).
Proof.
  split; [| split; [| split]].
  - intros w premises conclusion steps proc entries Hran Hcode Hblank Hparse.
    exists (VDict entries); split.
    + rewrite (call_proof_checker_outcome _ _ _ _ _ Hran), Hcode; cbn [Z.eqb negb].
      destruct (String.eqb_spec (strip (stdout proc)) "") as [Hempty | _].
      * apply strip_empty_iff in Hempty; congruence.
      * now rewrite Hparse.
    + split; apply py_get_field.
  - intros w args steps entries Hsteps Hverdict; split.
    + now apply main_outcome with (steps := steps).
    + now apply main_reports_error with (steps := steps).
  - intros premises conclusion steps.
    exists (VDict [("valid", VBool true)]); repeat split; reflexivity.
  - intros premises conclusion steps.
    exists (VDict [("valid", VBool false);
                   ("error", VStr "line 3 cites unknown reference")]).
    repeat split; reflexivity.
Qed.

(** *** The proof steps *)

Lemma rbind_Ok :
  forall (A : Type) (r : Result A), rbind r (fun a => Ok a) = r.
Proof. now intros A [e | a]. Qed.

Lemma mapR_ext :
  forall (A B : Type) (f g : A -> Result B) (l : list A),
    (forall x, f x = g x) -> mapR f l = mapR g l.
Proof.
  intros A B f g l Hfg; induction l as [| x l IH]; simpl; [reflexivity |].
  now rewrite Hfg, IH.
Qed.

Lemma mapR_length :
  forall (A B : Type) (f : A -> Result B) (l : list A) (l' : list B),
    mapR f l = Ok l' -> List.length l' = List.length l.
Proof.
  intros A B f; induction l as [| x l IH]; intros l'; simpl.
  - now intros [= <-].
  - destruct (f x) as [e | y]; [discriminate |]; simpl.
    destruct (mapR f l) as [e | ys]; [discriminate |]; simpl.
    intros [= <-]; simpl; now rewrite (IH ys).
Qed.

(** What the two comprehensions make of an item is what the data model
    asks for. *)
Lemma item_is_constructed :
  forall item,
    (let? f := getitem item "formula" in
     let? r := py_get item "rule" (VStr "") in
     Ok {| formula := f; rule := r |})
    = construct item.
Proof.
  intros [| b | z | r | s | items | entries]; try reflexivity.
  unfold getitem, py_get, construct.
  destruct (dict_get entries "formula"); [| reflexivity].
  now destruct (dict_get entries "rule").
Qed.

Lemma load_steps_from_stdin_outcome :
  forall w, outcome (load_steps_from_stdin w) = steps_of_document (stdin w).
Proof.
  intros w; unfold load_steps_from_stdin, steps_of_document, outcome, lift, fst.
  destruct (json_loads (stdin w)) as [e | parsed]; [reflexivity |]; cbn [rbind].
  destruct (getitem parsed "proof_steps") as [e | seq]; [reflexivity |]; cbn [rbind].
  destruct (py_iter seq) as [e | items]; [reflexivity |]; cbn [rbind].
  apply mapR_ext, item_is_constructed.
Qed.

Lemma call_llm_outcome :
  forall w model temperature premises conclusion doc,
    backend_content w model temperature premises conclusion doc ->
    outcome (call_llm w model temperature premises conclusion)
    = steps_of_document doc.
Proof.
  intros w model temperature premises conclusion doc
    (api_key & body & reply & choices & choice & message
     & Hkey & Hne & Hurl & Hbody & Hchoices & Hchoice & Hmessage & Hcontent).
  unfold call_llm; rewrite Hkey.
  destruct api_key as [| a k]; [contradiction |].
  rewrite Hurl.
  unfold outcome, bind, emit, ret, lift, Ok in *; cbv beta iota; cbn [fst].
  rewrite Hbody; cbn [rbind].
  rewrite Hchoices; cbn [rbind].
  rewrite Hchoice; cbn [rbind].
  rewrite Hmessage; cbn [rbind].
  rewrite Hcontent; cbn [rbind loads].
  unfold steps_of_document.
  destruct (json_loads doc) as [e | parsed]; [reflexivity |]; cbn [rbind].
  destruct (getitem parsed "proof_steps") as [e | seq]; [reflexivity |]; cbn [rbind].
  destruct (py_iter seq) as [e | items]; [reflexivity |]; cbn [rbind].
  etransitivity; [apply rbind_Ok |].
  apply mapR_ext; intros item; apply item_is_constructed.
Qed.


Lemma steps_of_document_items :
  forall doc parsed seq items,
    json_loads doc = Ok parsed ->
    getitem parsed "proof_steps" = Ok seq ->
    py_iter seq = Ok items ->
    steps_of_document doc = mapR construct items.
Proof.
  intros doc parsed seq items Hdoc Hseq Hitems; unfold steps_of_document.
  now rewrite Hdoc; cbn [rbind Ok]; rewrite Hseq; cbn [rbind Ok]; rewrite Hitems.
Qed.

(** C7, as the script has it. Whatever the premises, [call_llm] returns
    the steps that the items of the backend's [proof_steps] give, one for
    each item and in their order: it adds no premise step and raises no
    error when the leading steps are not the premises; and [main] runs
    the verifier on those very steps. *)
Theorem generated_steps_are_returned_as_given :
  forall w args doc parsed seq items steps,
    dry_run args = false ->
    backend_content w (model args) (temperature args) (premise args) (conclusion args) doc ->
    json_loads doc = Ok parsed ->
    getitem parsed "proof_steps" = Ok seq ->
    py_iter seq = Ok items ->
    mapR construct items = Ok steps ->
    outcome (call_llm w (model args) (temperature args) (premise args) (conclusion args))
    = Ok steps
    /\ List.length steps = List.length items
    /\ In (SubprocessRun (verifier_command w)
             (payload (premise args) (conclusion args) steps))
          (trace (main w args)).
Proof.
  intros w args doc parsed seq items steps Hdry Hbackend Hdoc Hseq Hitems Hsteps.
  assert (Hout : outcome (call_llm w (model args) (temperature args) (premise args)
                            (conclusion args)) = Ok steps).
  { rewrite (call_llm_outcome _ _ _ _ _ _ Hbackend).
    now rewrite (steps_of_document_items _ _ _ _ Hdoc Hseq Hitems). }
  split; [exact Hout |].
  split; [now apply mapR_length with (f := construct) |].
  unfold main; rewrite Hdry, trace_bind, Hout.
  apply in_or_app; right.
  rewrite trace_bind, call_proof_checker_trace.
  destruct (outcome (call_proof_checker _ _ _ _)); [now left |].
  apply in_or_app; left; now left.
Qed.

(** C9. On both paths each item of [proof_steps] is made a step as the
    data model asks: the reading fails at an item that has no [formula],
    and an item that has a [formula] and no [rule] gives a step whose
    justification is the empty text. *)
Theorem steps_are_constructed :
  forall w w' model temperature premises conclusion doc parsed seq items,
    stdin w = doc ->
    backend_content w' model temperature premises conclusion doc ->
    json_loads doc = Ok parsed ->
    getitem parsed "proof_steps" = Ok seq ->
    py_iter seq = Ok items ->
    (outcome (load_steps_from_stdin w) = mapR construct items
     /\ outcome (call_llm w' model temperature premises conclusion)
        = mapR construct items)
    /\ (forall entries,
           dict_get entries "formula" = None ->
           construct (VDict entries) = Raise (KeyError (VStr "formula")))
    /\ (forall entries f,
           dict_get entries "formula" = Some f ->
           dict_get entries "rule" = None ->
           construct (VDict entries) = Ok {| formula := f; rule := VStr "" |}).
Proof.
  intros w w' model temperature premises conclusion doc parsed seq items
    Hstdin Hbackend Hdoc Hseq Hitems.
  repeat split.
  - rewrite load_steps_from_stdin_outcome, Hstdin.
    now apply steps_of_document_items with (parsed := parsed) (seq := seq).
  - rewrite (call_llm_outcome _ _ _ _ _ _ Hbackend).
    now apply steps_of_document_items with (parsed := parsed) (seq := seq).
  - intros entries Hf; unfold construct; now rewrite Hf.
  - intros entries f Hf Hr; unfold construct; now rewrite Hf, Hr.
Qed.

(** C10. A payload text read from the standard input and the same text
    received as the content of the backend's reply give the same steps,
    or the same error: the steps of the text as the data model reads
    them, each item made a step, in order. *)
Theorem both_sources_read_alike :
  forall w w' model temperature premises conclusion doc,
    stdin w = doc ->
    backend_content w' model temperature premises conclusion doc ->
    outcome (load_steps_from_stdin w)
    = outcome (call_llm w' model temperature premises conclusion)
    /\ outcome (load_steps_from_stdin w) = steps_of_document doc.
Proof.
  intros w w' model temperature premises conclusion doc Hstdin Hbackend.
  rewrite load_steps_from_stdin_outcome, Hstdin.
  now rewrite (call_llm_outcome _ _ _ _ _ _ Hbackend).
Qed.

End Properties.

(** ** Runs *)

(** At a derivation whose step holds the separator, the request goes out
    with the separator in it and the verifier's verdict comes back: no
    error is raised. *)
Lemma pipe_in_formula_is_sent :
  existsb has_pipe (fields [] "Q" [("P|Q", "Premise")]) = true
  /\ @call_proof_checker cpython Sample.accepting [] "Q" (text_steps [("P|Q", "Premise")])
     = (Ok (VDict [("valid", VBool true)]),
        [SubprocessRun ["java"; "-cp"; ".:src"; "integration.ProofVerifier"]
           ("CONCLUSION|Q" ++ nl ++ "STEP|P|Q||Premise" ++ nl)]).
Proof. split; reflexivity. Qed.

Lemma separators_are_sent_as_given_witness :
  @payload cpython [] "Q" (text_steps [("P|Q", "Premise")])
  = "CONCLUSION|Q" ++ nl ++ "STEP|P|Q||Premise" ++ nl
  /\ trace (@call_proof_checker cpython Sample.accepting [] "Q"
              (text_steps [("P|Q", "Premise")]))
     = [SubprocessRun ["java"; "-cp"; ".:src"; "integration.ProofVerifier"]
          ("CONCLUSION|Q" ++ nl ++ "STEP|P|Q||Premise" ++ nl)].
Proof.
  exact (@separators_are_sent_as_given cpython Sample.accepting [] "Q"
           [("P|Q", "Premise")] eq_refl).
Defined.

(** The verifier prints the accepting reply and exits with status 3. *)
Lemma nonzero_exit_raises_witness :
  let w :=
    Sample.world Sample.credential "" Sample.silent
      (Sample.verifier 3 (Sample.accepted ++ nl) (" boom" ++ nl)) in
  (exists lead trail,
      blank lead = true /\ blank trail = true
      /\ " boom" ++ nl = lead ++ "boom" ++ trail)
  /\ outcome (@call_proof_checker cpython w [] "Q" [])
     = Raise (RuntimeError "Proof verifier exited with code 3: boom")
  /\ forall verdict, outcome (@call_proof_checker cpython w [] "Q" []) <> Ok verdict.
Proof.
  intros w.
  refine (@nonzero_exit_raises cpython w [] "Q" []
            {| returncode := 3; stdout := Sample.accepted ++ nl; stderr := " boom" ++ nl |}
            eq_refl _).
  discriminate.
Defined.

(** The verifier prints two spaces and a line feed. *)
Lemma empty_output_raises_witness :
  let w :=
    Sample.world Sample.credential "" Sample.silent (Sample.verifier 0 ("  " ++ nl) "") in
  outcome (@call_proof_checker cpython w [] "Q" [])
  = Raise (RuntimeError "Proof verifier produced no output.")
  /\ forall verdict, outcome (@call_proof_checker cpython w [] "Q" []) <> Ok verdict.
Proof.
  intros w.
  exact (@empty_output_raises cpython w [] "Q" []
           {| returncode := 0; stdout := "  " ++ nl; stderr := "" |}
           eq_refl eq_refl eq_refl).
Defined.

(** The verifier prints [ oops] and a line feed. *)
Lemma unparseable_output_raises_witness :
  let w :=
    Sample.world Sample.credential "" Sample.silent (Sample.verifier 0 (" oops" ++ nl) "") in
  (exists lead trail,
      blank lead = true /\ blank trail = true
      /\ " oops" ++ nl = lead ++ "oops" ++ trail)
  /\ outcome (@call_proof_checker cpython w [] "Q" [])
     = Raise (RuntimeError
                "Failed to parse verifier output 'oops': Expecting value: line 1 column 1 (char 0)")
  /\ forall verdict, outcome (@call_proof_checker cpython w [] "Q" []) <> Ok verdict.
Proof.
  intros w.
  exact (@unparseable_output_raises cpython w [] "Q" []
           {| returncode := 0; stdout := " oops" ++ nl; stderr := "" |}
           "Expecting value: line 1 column 1 (char 0)"
           eq_refl eq_refl eq_refl eq_refl).
Defined.

(** The verifier prints an object without [valid]. *)
Lemma reply_is_read_as_given_witness :
  let w :=
    Sample.world Sample.credential "" Sample.silent (Sample.verifier 0 ("{}" ++ nl) "") in
  exists verdict,
    outcome (@call_proof_checker cpython w [] "Q" []) = Ok verdict
    /\ py_get verdict "valid" (VBool false) = Ok (VBool false)
    /\ py_get verdict "error" VNone = Ok VNone.
Proof.
  intros w.
  exact (proj1 (@reply_is_read_as_given cpython) w [] "Q" []
           {| returncode := 0; stdout := "{}" ++ nl; stderr := "" |} []
           eq_refl eq_refl eq_refl eq_refl).
Defined.

(** One premise is given and the backend's only step is not a premise
    step: [call_llm] returns that step alone. *)
Lemma missing_premise_is_accepted :
  outcome
    (@call_llm cpython
       (Sample.world Sample.credential "" (Sample.backend Sample.one_step)
          (Sample.verifier 0 (Sample.accepted ++ nl) ""))
       "gpt-4.1-mini" (VInt 1) ["P"] "Q")
  = Ok [step "Q" "→e 1"].
Proof. reflexivity. Qed.

Lemma generated_steps_are_returned_as_given_witness :
  let w :=
    Sample.world Sample.credential "" (Sample.backend Sample.one_step)
      (Sample.verifier 0 (Sample.accepted ++ nl) "") in
  let args :=
    {| premise := ["P"]; conclusion := "Q"; model := "gpt-4.1-mini";
       temperature := VInt 1; dry_run := false |} in
  outcome (@call_llm cpython w "gpt-4.1-mini" (VInt 1) ["P"] "Q") = Ok [step "Q" "→e 1"]
  /\ List.length [step "Q" "→e 1"] = 1
  /\ In (SubprocessRun ["java"; "-cp"; ".:src"; "integration.ProofVerifier"]
           ("CONCLUSION|Q" ++ nl ++ "PREMISE|P" ++ nl ++ "STEP|Q||→e 1" ++ nl))
        (trace (@main cpython w args)).
Proof.
  intros w args.
  refine (@generated_steps_are_returned_as_given cpython w args Sample.one_step
            (VDict [("proof_steps", VList [VDict [("formula", VStr "Q"); ("rule", VStr "→e 1")]])])
            (VList [VDict [("formula", VStr "Q"); ("rule", VStr "→e 1")]])
            [VDict [("formula", VStr "Q"); ("rule", VStr "→e 1")]]
            [step "Q" "→e 1"]
            eq_refl _ eq_refl eq_refl eq_refl eq_refl).
  backend_replies.
Defined.

(** C8, at a run with the override set. With [OPENAI_TIMEOUT] set to 30
    seconds [REQUEST_TIMEOUT] is 30.0, and 180.0 without it, yet [call_llm]
    opens its request with a wait of 120 seconds. *)
Theorem timeout_override_is_ignored :
  let w :=
    Sample.world Sample.credential_and_timeout "" (Sample.backend Sample.one_step)
      (Sample.verifier 0 (Sample.accepted ++ nl) "") in
  @REQUEST_TIMEOUT cpython w = Ok (VFloat "30.0")
  /\ @REQUEST_TIMEOUT cpython Sample.accepting = Ok (VFloat "180.0")
  /\ trace (@call_llm cpython w "gpt-4.1-mini" (VInt 1) [] "Q")
     = [Urlopen (@chat_request cpython w "gpt-4.1-mini" (VInt 1) [] "Q" "sk-test") (VInt 120)].
Proof. intros w; split; [reflexivity | split; reflexivity]. Qed.

(** The payloads with an item that has no justification, and with an item
    that has no formula. *)
Lemma steps_are_constructed_witness :
  let w := Sample.world Sample.credential Sample.no_rule Sample.silent (Sample.verifier 0 "" "") in
  let w' :=
    Sample.world Sample.credential "" (Sample.backend Sample.no_rule)
      (Sample.verifier 0 "" "") in
  (outcome (@load_steps_from_stdin cpython w) = Ok [step "P" ""]
   /\ outcome (@call_llm cpython w' "gpt-4.1-mini" (VInt 1) [] "P") = Ok [step "P" ""])
  /\ (forall entries,
         dict_get entries "formula" = None ->
         construct (VDict entries) = Raise (KeyError (VStr "formula")))
  /\ (forall entries f,
         dict_get entries "formula" = Some f ->
         dict_get entries "rule" = None ->
         construct (VDict entries) = Ok {| formula := f; rule := VStr "" |}).
Proof.
  intros w w'.
  refine (@steps_are_constructed cpython w w' "gpt-4.1-mini" (VInt 1) [] "P" Sample.no_rule
            (VDict [("proof_steps", VList [VDict [("formula", VStr "P")]])])
            (VList [VDict [("formula", VStr "P")]])
            [VDict [("formula", VStr "P")]]
            eq_refl _ eq_refl eq_refl eq_refl).
  backend_replies.
Defined.

Lemma both_sources_read_alike_witness :
  let w :=
    Sample.world Sample.credential Sample.no_formula Sample.silent (Sample.verifier 0 "" "") in
  let w' :=
    Sample.world Sample.credential "" (Sample.backend Sample.no_formula)
      (Sample.verifier 0 "" "") in
  outcome (@load_steps_from_stdin cpython w)
  = outcome (@call_llm cpython w' "gpt-4.1-mini" (VInt 1) ["P"] "Q")
  /\ outcome (@load_steps_from_stdin cpython w) = Raise (KeyError (VStr "formula")).
Proof.
  intros w w'.
  refine (@both_sources_read_alike cpython w w' "gpt-4.1-mini" (VInt 1) ["P"] "Q"
            Sample.no_formula eq_refl _).
  backend_replies.
Defined.

(** ** Further properties *)

(** *** Reading a request back *)

Lemma join_terminated :
  forall (l : list string), l <> [] -> join nl l ++ nl = terminated l.
Proof.
  unfold join, terminated.
  induction l as [| x l IH]; [congruence |]; intros _.
  destruct l as [| y l]; [reflexivity |].
  specialize (IH ltac:(discriminate)).
  change (String.concat nl (x :: y :: l)) with (x ++ nl ++ String.concat nl (y :: l)).
  change (map (fun l0 => l0 ++ nl) (x :: y :: l))
    with ((x ++ nl) :: map (fun l0 => l0 ++ nl) (y :: l)).
  now rewrite concat_cons, <- IH, !append_assoc.
Qed.

Lemma has_newline_app :
  forall a b, has_newline (a ++ b) = (has_newline a || has_newline b)%bool.
Proof.
  induction a as [| x a IH]; intros b; simpl; [reflexivity |].
  now rewrite IH, orb_assoc.
Qed.

(** Two texts without line feed that agree up to the first line feed
    after them are the same, and so is what follows. *)
Lemma first_line :
  forall a a' r r',
    has_newline a = false -> has_newline a' = false ->
    a ++ nl ++ r = a' ++ nl ++ r' -> a = a' /\ r = r'.
Proof.
  induction a as [| x a IH]; intros [| x' a'] r r' Ha Ha' Heq; simpl in *.
  - injection Heq as ->; now split.
  - injection Heq as <- _. now rewrite orb_true_l in Ha'.
  - injection Heq as -> _. now rewrite orb_true_l in Ha.
  - injection Heq as <- Heq.
    apply orb_false_elim in Ha as [_ Ha]; apply orb_false_elim in Ha' as [_ Ha'].
    destruct (IH _ _ _ Ha Ha' Heq) as [-> ->]; now split.
Qed.

Lemma terminated_inj :
  forall l l',
    Forall (fun t => has_newline t = false) l ->
    Forall (fun t => has_newline t = false) l' ->
    terminated l = terminated l' -> l = l'.
Proof.
  unfold terminated.
  induction l as [| x l IH]; intros [| x' l'] Hl Hl' Heq.
  - reflexivity.
  - cbn [map] in Heq; rewrite concat_cons in Heq.
    destruct x'; discriminate.
  - cbn [map] in Heq; rewrite concat_cons in Heq.
    destruct x; discriminate.
  - cbn [map] in Heq; rewrite !concat_cons, !append_assoc in Heq.
    inversion Hl as [| ? ? Hx Hl0]; inversion Hl' as [| ? ? Hx' Hl0']; subst.
    destruct (first_line _ _ _ _ Hx Hx' Heq) as [-> Hrest].
    now rewrite (IH _ Hl0 Hl0' Hrest).
Qed.

Lemma append_cancel_l : forall p a b : string, p ++ a = p ++ b -> a = b.
Proof.
  induction p as [| x p IH]; intros a b Heq; simpl in Heq; [assumption |].
  injection Heq as Heq; now apply IH.
Qed.

(** Two texts without separator that agree up to the first separator
    after them are the same, and so is what follows. *)
Lemma first_pipe :
  forall a a' r r',
    has_pipe a = false -> has_pipe a' = false ->
    a ++ "|" ++ r = a' ++ "|" ++ r' -> a = a' /\ r = r'.
Proof.
  induction a as [| x a IH]; intros [| x' a'] r r' Ha Ha' Heq; simpl in *.
  - injection Heq as ->; now split.
  - injection Heq as <- _. now rewrite orb_true_l in Ha'.
  - injection Heq as -> _. now rewrite orb_true_l in Ha.
  - injection Heq as <- Heq.
    apply orb_false_elim in Ha as [_ Ha]; apply orb_false_elim in Ha' as [_ Ha'].
    destruct (IH _ _ _ Ha Ha' Heq) as [-> ->]; now split.
Qed.

Lemma step_line_inj :
  forall f f' r r',
    has_pipe f = false -> has_pipe f' = false ->
    step_line f r = step_line f' r' -> f = f' /\ r = r'.
Proof.
  intros f f' r r' Hf Hf' Heq; unfold step_line in Heq.
  apply append_cancel_l in Heq.
  change (f ++ "|" ++ ("|" ++ r) = f' ++ "|" ++ ("|" ++ r')) in Heq.
  destruct (first_pipe _ _ _ _ Hf Hf' Heq) as [-> Hr].
  now injection Hr as ->.
Qed.

Lemma step_lines_inj :
  forall steps steps' : list (string * string),
    Forall (fun fr => has_pipe (fst fr) = false) steps ->
    Forall (fun fr => has_pipe (fst fr) = false) steps' ->
    map (fun fr => step_line (fst fr) (snd fr)) steps
    = map (fun fr => step_line (fst fr) (snd fr)) steps' ->
    steps = steps'.
Proof.
  induction steps as [| [f r] steps IH]; intros [| [f' r'] steps'] Hs Hs' Heq;
    try discriminate; [reflexivity |].
  assert (Hline := f_equal (hd "") Heq); assert (Hrest := f_equal (@tl _) Heq).
  cbn [hd tl map fst snd] in Hline, Hrest.
  inversion Hs as [| ? ? Hf Hs0]; inversion Hs' as [| ? ? Hf' Hs0']; subst.
  cbn [fst] in Hf, Hf'.
  destruct (step_line_inj _ _ _ _ Hf Hf' Hline) as [-> ->].
  now rewrite (IH _ Hs0 Hs0' Hrest).
Qed.

Lemma wire_lines_inj :
  forall premises premises' conclusion conclusion' steps steps',
    Forall (fun fr => has_pipe (fst fr) = false) steps ->
    Forall (fun fr => has_pipe (fst fr) = false) steps' ->
    wire_lines premises conclusion steps = wire_lines premises' conclusion' steps' ->
    premises = premises' /\ conclusion = conclusion' /\ steps = steps'.
Proof.
  intros premises premises' conclusion conclusion' steps steps' Hs Hs'.
  unfold wire_lines; intros Heq; injection Heq as Hc Hrest.
  subst conclusion'.
  enough (premises = premises' /\ steps = steps') by tauto.
  revert premises' Hrest; induction premises as [| p premises IH];
    intros [| p' premises'] Hrest; cbn [map app] in Hrest.
  - split; [reflexivity | now apply step_lines_inj].
  - destruct steps as [| [f r] steps]; discriminate.
  - destruct steps' as [| [f r] steps']; discriminate.
  - injection Hrest as Hp Hrest. subst p'.
    destruct (IH _ Hrest) as [-> ->]; now split.
Qed.

Lemma readable_lines :
  forall premises conclusion steps,
    readable premises conclusion steps = true ->
    Forall (fun t => has_newline t = false) (wire_lines premises conclusion steps)
    /\ Forall (fun fr => has_pipe (fst fr) = false) steps.
Proof.
  intros premises conclusion steps Hr; unfold readable in Hr.
  apply andb_prop in Hr as [Hnl Hpipe].
  rewrite forallb_forall in Hnl, Hpipe; split.
  - unfold wire_lines, fields in *. apply Forall_forall; intros t Ht.
    assert (Hfield : forall x, In x (conclusion :: premises
               ++ flat_map (fun fr => [fst fr; snd fr]) steps) -> has_newline x = false)
      by (intros x Hx; apply negb_true_iff; now apply Hnl).
    destruct Ht as [<- | Ht].
    + unfold conclusion_line; rewrite has_newline_app, (Hfield conclusion) by now left.
      reflexivity.
    + apply in_app_or in Ht as [Ht | Ht]; apply in_map_iff in Ht as (x & <- & Hx).
      * unfold premise_line; rewrite has_newline_app, (Hfield x); [reflexivity |].
        right; apply in_or_app; now left.
      * unfold step_line; rewrite !has_newline_app.
        rewrite (Hfield (fst x)), (Hfield (snd x)); [reflexivity | |];
          right; apply in_or_app; right; apply in_flat_map; exists x;
          (split; [assumption | simpl; auto]).
  - apply Forall_forall; intros fr Hfr; apply negb_true_iff; now apply Hpipe.
Qed.

(** *** Lengths *)

Lemma str_len_String :
  forall a r, str_len (String a r) = ((if starts_inside r then 0 else 1) + str_len r)%nat.
Proof.
  intros a r; unfold str_len; cbn [characters].
  destruct (characters r) as [| c cs] eqn:E.
  - apply characters_nil in E; subst r; reflexivity.
  - now destruct (starts_inside r).
Qed.

Lemma starts_inside_app :
  forall s t, starts_inside t = false -> starts_inside (s ++ t) = starts_inside s.
Proof. intros [| a s] t Ht; [exact Ht | reflexivity]. Qed.

Lemma str_len_app :
  forall s t, starts_inside t = false -> str_len (s ++ t) = (str_len s + str_len t)%nat.
Proof.
  induction s as [| a s IH]; intros t Ht; [reflexivity |].
  cbn [append]; rewrite !str_len_String, starts_inside_app, IH by assumption. lia.
Qed.

Lemma repeat_string_len :
  forall (a : ascii) n,
    is_continuation a = false ->
    str_len (repeat_string (String a "") n) = n
    /\ starts_inside (repeat_string (String a "") n) = false.
Proof.
  intros a n Ha; induction n as [| n [IHl IHs]]; [now split |].
  cbn [repeat_string append]; split; [| exact Ha].
  rewrite str_len_String, IHs, IHl; reflexivity.
Qed.

Lemma ljust_len :
  forall s width,
    (str_len s <= width)%nat ->
    str_len (ljust s width) = width.
Proof.
  intros s width Hs; unfold ljust.
  destruct (repeat_string_len " " (width - str_len s) eq_refl) as [Hl Hi].
  rewrite str_len_app, Hl by exact Hi. lia.
Qed.

Lemma ljust_begun :
  forall s width, starts_inside s = false -> starts_inside (ljust s width) = false.
Proof.
  intros s width Hs; unfold ljust.
  destruct (repeat_string_len " " (width - str_len s) eq_refl) as [_ Hi].
  now rewrite starts_inside_app.
Qed.

Lemma str_int_begun : forall z, starts_inside (str_int z) = false.
Proof.
  intros [| p | p]; unfold str_int; cbn [Z.to_int NilZero.string_of_int];
    try reflexivity; unfold NilZero.string_of_uint;
    destruct (Pos.to_uint p); reflexivity.
Qed.

(** A line of three cells is as wide as its columns and the two gaps. *)
Lemma line_len :
  forall x y z a b c,
    str_len x = a -> str_len y = b -> str_len z = c ->
    starts_inside y = false -> starts_inside z = false ->
    str_len (join "  " [x; y; z]) = (a + b + c + 4)%nat.
Proof.
  intros x y z a b c Hx Hy Hz Hsy Hsz; unfold join; cbn [String.concat].
  rewrite str_len_app by reflexivity.
  change ("  " ++ y ++ "  " ++ z) with (String " " (String " " (y ++ "  " ++ z))).
  rewrite !str_len_String, str_len_app by reflexivity.
  change ("  " ++ z) with (String " " (String " " z)).
  rewrite !str_len_String.
  cbn [starts_inside]; rewrite starts_inside_app by reflexivity.
  rewrite Hsy, Hsz; change (is_continuation " ") with false; cbv iota. lia.
Qed.

(** *** The table of a derivation of texts *)

Lemma bind_lift_Ok :
  forall (A B : Type) (a : A) (k : A -> M B), bind (lift (Ok a)) k = k a.
Proof. intros A B a k; unfold bind, lift, Ok; now destruct (k a). Qed.

Lemma bind_print :
  forall (B : Type) (text : string) (k : unit -> M B),
    bind (print text) k = (outcome (k tt), Print Stdout text :: trace (k tt)).
Proof. intros B text k; unfold bind, print, emit, Ok; now destruct (k tt). Qed.

Lemma text_rows_eq :
  forall (steps : list (string * string)) (start : nat),
    map (fun ix => [VStr (str_nat (fst ix)); formula (snd ix); rule (snd ix)])
      (enumerate start (text_steps steps))
    = map (map VStr) (text_rows_of steps start).
Proof.
  unfold text_rows_of.
  induction steps as [| fr steps IH]; intros start; [reflexivity |].
  cbn [text_steps map enumerate fst snd step formula rule].
  f_equal. apply IH.
Qed.

Lemma widen_Ok :
  forall (row : list string) (widths : list nat),
    mapR (fun wc => let? n := py_len (snd wc) in Ok (Nat.max (fst wc) n))
      (combine widths (map VStr row))
    = Ok (widen widths row).
Proof.
  unfold widen.
  induction row as [| c row IH]; intros [| wd widths]; try reflexivity.
  cbn [map combine mapR py_len rbind Ok fst snd]. now rewrite IH.
Qed.

Lemma widths_Ok :
  forall (rows : list (list string)) (acc : Result (list nat)) (widths : list nat),
    acc = Ok widths ->
    fold_left
      (fun acc row =>
         let? widths := acc in
         mapR (fun wc => let? n := py_len (snd wc) in Ok (Nat.max (fst wc) n))
           (combine widths row))
      (map (map VStr) rows) acc
    = Ok (fold_left widen rows widths).
Proof.
  induction rows as [| row rows IH]; intros acc widths ->; [reflexivity |].
  cbn [map fold_left]. apply IH. exact (widen_Ok row widths).
Qed.

Lemma cells_Ok :
  forall (row : list string) (widths : list nat),
    (let? cells :=
       mapR (fun cw => py_ljust (fst cw) (snd cw)) (combine (map VStr row) widths) in
     Ok (join "  " cells))
    = Ok (join "  " (cells row widths)).
Proof.
  intros row widths.
  assert (Hcells : mapR (fun cw => py_ljust (fst cw) (snd cw)) (combine (map VStr row) widths)
                   = Ok (cells row widths)).
  { unfold cells; revert widths; induction row as [| c row IH]; intros [| wd widths];
      try reflexivity.
    cbn [map combine mapR py_ljust rbind Ok fst snd]. now rewrite IH. }
  now rewrite Hcells.
Qed.

Lemma rows_printed :
  forall (rows : list (list string)) (widths : list nat),
    forM (map (map VStr) rows)
      (fun row =>
         line <-
           lift
             (let? cells :=
                mapR (fun cw => py_ljust (fst cw) (snd cw)) (combine row widths) in
              Ok (join "  " cells)) ;;
         print line)
    = (Ok tt, map (fun row => Print Stdout (join "  " (cells row widths))) rows).
Proof.
  induction rows as [| row rows IH]; intros widths; [reflexivity |].
  cbn [map forM]. rewrite cells_Ok, bind_lift_Ok.
  unfold bind at 1, print, emit, Ok. now rewrite IH.
Qed.

(** What [print_table] prints for a derivation of texts. *)
Lemma print_table_lines :
  forall steps : list (string * string),
    let widths :=
      fold_left widen (text_rows_of steps 1)
        [str_len "Step"; str_len "Formula"; str_len "Justification"] in
    print_table (text_steps steps)
    = (Ok tt,
       Print Stdout (join "  " (cells ["Step"; "Formula"; "Justification"] widths))
         :: Print Stdout (join "  " (map (fun width => repeat_string "-" width) widths))
         :: map (fun row => Print Stdout (join "  " (cells row widths)))
              (text_rows_of steps 1)).
Proof.
  intros steps widths; unfold print_table.
  rewrite text_rows_eq.
  change (mapR py_len [VStr "Step"; VStr "Formula"; VStr "Justification"])
    with (Ok [str_len "Step"; str_len "Formula"; str_len "Justification"]).
  rewrite bind_lift_Ok, (widths_Ok _ _ _ eq_refl), bind_lift_Ok.
  fold widths.
  change [VStr "Step"; VStr "Formula"; VStr "Justification"]
    with (map VStr ["Step"; "Formula"; "Justification"]).
  rewrite cells_Ok, bind_lift_Ok, bind_print, bind_print, rows_printed.
  reflexivity.
Qed.

Lemma widths_cover :
  forall (steps : list (string * string)) (start a b c : nat),
    exists a' b' c',
      fold_left widen (text_rows_of steps start) [a; b; c] = [a'; b'; c']
      /\ (a <= a')%nat /\ (b <= b')%nat /\ (c <= c')%nat
      /\ Forall
           (fun row =>
              exists x y z,
                row = [x; y; z]
                /\ (str_len x <= a')%nat /\ (str_len y <= b')%nat /\ (str_len z <= c')%nat)
           (text_rows_of steps start).
Proof.
  unfold text_rows_of.
  induction steps as [| [f r] steps IH]; intros start a b c.
  - exists a, b, c; repeat split; auto.
  - cbn [enumerate map fold_left fst snd].
    change (widen [a; b; c] [str_nat start; f; r])
      with [Nat.max a (str_len (str_nat start)); Nat.max b (str_len f); Nat.max c (str_len r)].
    destruct (IH (S start) (Nat.max a (str_len (str_nat start))) (Nat.max b (str_len f))
                (Nat.max c (str_len r)))
      as (a' & b' & c' & Hfold & Ha & Hb & Hc & Hrows).
    exists a', b', c'; repeat split; try lia; [exact Hfold |].
    constructor; [| exact Hrows].
    exists (str_nat start), f, r; repeat split; lia.
Qed.

Lemma enumerate_length :
  forall (A : Type) (l : list A) (start : nat),
    List.length (enumerate start l) = List.length l.
Proof.
  induction l as [| x l IH]; intros start; [reflexivity |].
  cbn [enumerate List.length]; now rewrite IH.
Qed.

Lemma rows_begun :
  forall (steps : list (string * string)) (start : nat),
    forallb (fun fr => well_begun (fst fr) && well_begun (snd fr))%bool steps = true ->
    Forall
      (fun row =>
         forall x y z, row = [x; y; z] -> starts_inside y = false /\ starts_inside z = false)
      (text_rows_of steps start).
Proof.
  unfold text_rows_of, well_begun.
  induction steps as [| [f r] steps IH]; intros start Hs; [constructor |].
  cbn [forallb fst snd] in Hs. apply andb_prop in Hs as [Hfr Hs].
  apply andb_prop in Hfr as [Hf Hr]. apply negb_true_iff in Hf, Hr.
  cbn [enumerate map fst snd]; constructor; [| now apply IH].
  intros x y z [= _ <- <-]; now split.
Qed.

(** X3. The table of a derivation of texts is printed on the output
    without error: a header, a rule, and a line for each step, all of one
    width, which is at least 28 characters. *)
Theorem table_is_aligned :
  forall steps : list (string * string),
    forallb (fun fr => well_begun (fst fr) && well_begun (snd fr))%bool steps = true ->
    exists lines width,
      print_table (text_steps steps) = (Ok tt, map (Print Stdout) lines)
      /\ List.length lines = (2 + List.length steps)%nat
      /\ (28 <= width)%nat
      /\ Forall (fun line => str_len line = width) lines.
Proof.
  intros steps Hsteps.
  destruct (widths_cover steps 1 4 7 13) as (a & b & c & Hfold & Ha & Hb & Hc & Hrows).
  pose proof (print_table_lines steps) as Hprint; cbv zeta in Hprint.
  change [str_len "Step"; str_len "Formula"; str_len "Justification"] with [4; 7; 13]%nat
    in Hprint.
  rewrite Hfold in Hprint.
  exists (join "  " (cells ["Step"; "Formula"; "Justification"] [a; b; c])
            :: join "  " (map (fun width => repeat_string "-" width) [a; b; c])
            :: map (fun row => join "  " (cells row [a; b; c])) (text_rows_of steps 1)).
  exists (a + b + c + 4)%nat.
  split; [| split; [| split]].
  - rewrite Hprint; cbn [map]; now rewrite map_map.
  - cbn [List.length]; unfold text_rows_of.
    now rewrite !length_map, enumerate_length.
  - lia.
  - constructor; [| constructor].
    + cbn [cells map combine fst snd]; apply line_len;
        [ apply ljust_len; change (str_len "Step") with 4%nat; lia
        | apply ljust_len; change (str_len "Formula") with 7%nat; lia
        | apply ljust_len; change (str_len "Justification") with 13%nat; lia
        | now apply ljust_begun
        | now apply ljust_begun ].
    + cbn [map]; apply line_len; now apply (repeat_string_len "-").
    + apply Forall_map. pose proof (rows_begun steps 1 Hsteps) as Hbegun.
      rewrite Forall_forall in *; intros row Hrow.
      destruct (Hrows row Hrow) as (x & y & z & -> & Hx & Hy & Hz).
      destruct (Hbegun _ Hrow x y z eq_refl) as [Hsy Hsz].
      cbn [cells map combine fst snd]; apply line_len;
        [ now apply ljust_len | now apply ljust_len | now apply ljust_len
        | now apply ljust_begun | now apply ljust_begun ].
Qed.

Lemma widths_raise :
  forall (rows : list (list value)) (e : exn),
    fold_left
      (fun acc row =>
         let? widths := acc in
         mapR (fun wc => let? n := py_len (snd wc) in Ok (Nat.max (fst wc) n))
           (combine widths row))
      rows (Raise e)
    = Raise e.
Proof. induction rows as [| row rows IH]; intros e; [reflexivity | apply IH]. Qed.

Lemma widths_unsized :
  forall (steps : list ProofStep) (start a b c : nat),
    existsb (fun s => unsized (formula s) || unsized (rule s))%bool steps = true ->
    fold_left
      (fun acc row =>
         let? widths := acc in
         mapR (fun wc => let? n := py_len (snd wc) in Ok (Nat.max (fst wc) n))
           (combine widths row))
      (map (fun ix => [VStr (str_nat (fst ix)); formula (snd ix); rule (snd ix)])
         (enumerate start steps))
      (Ok [a; b; c])
    = Raise TypeError.
Proof.
  induction steps as [| [f r] steps IH]; intros start a b c Hs; [discriminate |].
  cbn [existsb formula rule] in Hs.
  cbn [enumerate map fold_left fst snd formula rule].
  destruct f as [| fb | fz | ff | fs | fl | fd]; try apply widths_raise;
    destruct r as [| rb | rz | rf | rs | rl | rd]; try apply widths_raise;
    cbn [unsized orb] in Hs; apply IH; exact Hs.
Qed.

(** X4. A step whose formula or justification is a number, a truth
    value or [None] makes [print_table] raise [TypeError] before it prints
    anything. *)
Theorem table_of_unsized_field :
  forall steps : list ProofStep,
    existsb (fun s => unsized (formula s) || unsized (rule s))%bool steps = true ->
    print_table steps = (Raise TypeError, []).
Proof.
  intros steps Hs; unfold print_table.
  change (mapR py_len [VStr "Step"; VStr "Formula"; VStr "Justification"])
    with (Ok [str_len "Step"; str_len "Formula"; str_len "Justification"]).
  rewrite bind_lift_Ok, (widths_unsized _ _ _ _ _ Hs). reflexivity.
Qed.

Section Further.

Context `{Runtime}.

(** X1. Two derivations whose texts hold no line feed and whose formulas
    hold no separator, and that give the same request, are the same: the
    request can be read back. *)
Theorem request_is_read_back :
  forall premises premises' conclusion conclusion' steps steps',
    readable premises conclusion steps = true ->
    readable premises' conclusion' steps' = true ->
    payload premises conclusion (text_steps steps)
    = payload premises' conclusion' (text_steps steps') ->
    premises = premises' /\ conclusion = conclusion' /\ steps = steps'.
Proof.
  intros premises premises' conclusion conclusion' steps steps' Hr Hr' Heq.
  destruct (readable_lines _ _ _ Hr) as [Hnl Hp].
  destruct (readable_lines _ _ _ Hr') as [Hnl' Hp'].
  unfold payload in Heq; rewrite !payload_lines_text in Heq.
  rewrite !join_terminated in Heq by (unfold wire_lines; discriminate).
  apply terminated_inj in Heq; try assumption.
  now apply wire_lines_inj.
Qed.

(** X2. The prompt is the heading, then the premises each on a line of
    its own numbered from 1 in their order, or the line that there are none,
    then the conclusion, an empty line and the two requests, joined by line
    feeds. *)
Theorem user_prompt_lines :
  forall premises conclusion,
    build_user_prompt premises conclusion = join nl (prompt_lines premises conclusion).
Proof.
  intros premises conclusion; unfold build_user_prompt, prompt_lines.
  destruct premises as [| p premises].
  - reflexivity.
  - rewrite (fold_left_append1 _ _
               (fun ip => "  " ++ str_nat (fst ip) ++ ". " ++ snd ip)).
    unfold append1; rewrite <- !app_assoc. reflexivity.
Qed.

(** *** Where the events of a run come from *)

Lemma Forall_trace_bind :
  forall (A B : Type) (P : event -> Prop) (m : M A) (k : A -> M B),
    Forall P (trace m) ->
    (forall a, outcome m = Ok a -> Forall P (trace (k a))) ->
    Forall P (trace (bind m k)).
Proof.
  intros A B P m k Hm Hk; rewrite trace_bind.
  destruct (outcome m) as [e | a] eqn:E; [exact Hm |].
  apply Forall_app; split; [exact Hm | now apply Hk].
Qed.

Lemma load_steps_from_stdin_trace :
  forall w, trace (load_steps_from_stdin w) = [].
Proof. reflexivity. Qed.

Lemma call_llm_requests :
  forall w model temperature premises conclusion,
    Forall (fun e => is_request e = true)
      (trace (call_llm w model temperature premises conclusion)).
Proof.
  intros w model temperature premises conclusion; unfold call_llm.
  destruct (environ w "OPENAI_API_KEY") as [[| a k] |]; try constructor.
  unfold trace, bind, emit, ret, raise, lift.
  destruct (urlopen w _ _); repeat constructor.
Qed.

Lemma forM_prints :
  forall (A : Type) (l : list A) (f : A -> Result string),
    Forall (fun e => on_stdout e = true)
      (trace (forM l (fun x => line <- lift (f x) ;; print line))).
Proof.
  intros A l f; induction l as [| x l IH]; [constructor |].
  cbn [forM]. apply Forall_trace_bind; [| intros _ _; exact IH].
  apply Forall_trace_bind; [constructor |].
  intros line _; repeat constructor.
Qed.

Lemma print_table_prints :
  forall steps,
    Forall (fun e => on_stdout e = true)
      (trace (print_table steps)).
Proof.
  intros steps; unfold print_table.
  apply Forall_trace_bind; [constructor | intros widths0 _].
  apply Forall_trace_bind; [constructor | intros widths _].
  apply Forall_trace_bind; [constructor | intros line _].
  apply Forall_trace_bind; [repeat constructor | intros _ _].
  apply Forall_trace_bind; [repeat constructor | intros _ _].
  apply forM_prints.
Qed.

Lemma obtain_steps_requests :
  forall w args, Forall (fun e => is_request e = true) (trace (obtain_steps w args)).
Proof.
  intros w args; unfold obtain_steps; destruct (dry_run args);
    [constructor | apply call_llm_requests].
Qed.

Lemma M_eta : forall (A : Type) (m : M A), m = (outcome m, trace m).
Proof. now intros A [r t]. Qed.

(** X10. When the steps cannot be obtained, [main] ends with the same
    error: the verifier is not run and nothing is printed. *)
Theorem main_stops_when_steps_fail :
  forall w args e,
    outcome (obtain_steps w args) = Raise e ->
    main w args = (Raise e, trace (obtain_steps w args))
    /\ Forall (fun ev => is_run ev = false /\ is_print ev = false) (trace (main w args)).
Proof.
  intros w args e He.
  assert (Hmain : main w args = (Raise e, trace (obtain_steps w args))).
  { rewrite (M_eta _ (main w args)); unfold main; fold (obtain_steps w args).
    now rewrite outcome_bind, trace_bind, He. }
  split; [exact Hmain |].
  rewrite Hmain; cbn [trace snd].
  eapply Forall_impl; [| apply obtain_steps_requests].
  intros [req t | cmd input | to text] Hev; (discriminate || now split).
Qed.

(** X11. When the verifier cannot be run or its reply cannot be used,
    [main] ends with the same error, having printed nothing. *)
Theorem main_stops_when_verifier_fails :
  forall w args steps e,
    outcome (obtain_steps w args) = Ok steps ->
    outcome (call_proof_checker w (premise args) (conclusion args) steps) = Raise e ->
    main w args
    = (Raise e,
       (trace (obtain_steps w args)
          ++ [SubprocessRun (verifier_command w)
                (payload (premise args) (conclusion args) steps)])%list).
Proof.
  intros w args steps e Hsteps He.
  rewrite (M_eta _ (main w args)); unfold main; fold (obtain_steps w args).
  rewrite outcome_bind, trace_bind, Hsteps; run.
  now rewrite outcome_bind, trace_bind, He, call_proof_checker_trace.
Qed.

(** X12. What a run that reaches the report prints and returns. *)
Theorem main_report :
  forall w args steps entries,
    outcome (obtain_steps w args) = Ok steps ->
    outcome (call_proof_checker w (premise args) (conclusion args) steps)
    = Ok (VDict entries) ->
    outcome (print_table steps) = Ok tt ->
    main w args
    = (Ok (if truthy (field entries "valid" (VBool false)) then 0%Z else 1%Z),
       (trace (obtain_steps w args)
          ++ [SubprocessRun (verifier_command w)
                (payload (premise args) (conclusion args) steps)]
          ++ trace (print_table steps)
          ++ [Print Stdout "";
              Print Stdout (summary (field entries "valid" (VBool false)) steps)]
          ++ (if truthy (field entries "valid" (VBool false)) then []
              else if truthy (field entries "error" VNone) then
                [Print Stderr
                   ("Proof checker error: " ++ py_str (field entries "error" VNone))%string]
              else []))%list).
Proof.
  intros w args steps entries Hsteps Hverdict Htable.
  rewrite (M_eta _ (main w args)); unfold main; fold (obtain_steps w args).
  rewrite outcome_bind, trace_bind, Hsteps; run.
  rewrite outcome_bind, trace_bind, Hverdict, call_proof_checker_trace; run.
  rewrite outcome_bind, trace_bind, Htable; run.
  rewrite outcome_bind, trace_bind; run.
  rewrite outcome_bind, trace_bind, py_get_field; run.
  rewrite outcome_bind, trace_bind; run.
  rewrite outcome_bind, trace_bind; run.
  fold (summary (field entries "valid" (VBool false)) steps).
  destruct (truthy (field entries "valid" (VBool false))); cbn [negb].
  - cbn [outcome trace ret fst snd app]. reflexivity.
  - rewrite outcome_bind, trace_bind, py_get_field; run.
    rewrite outcome_bind, trace_bind.
    destruct (truthy (field entries "error" VNone)); reflexivity.
Qed.


(** X13. A reply that is JSON and not an object makes [main] raise after
    the table and the blank line are printed, before the summary. *)
Theorem verdict_that_is_no_object :
  forall w args steps verdict,
    outcome (obtain_steps w args) = Ok steps ->
    outcome (call_proof_checker w (premise args) (conclusion args) steps) = Ok verdict ->
    outcome (print_table steps) = Ok tt ->
    (forall entries, verdict <> VDict entries) ->
    main w args
    = (Raise AttributeError,
       (trace (obtain_steps w args)
          ++ [SubprocessRun (verifier_command w)
                (payload (premise args) (conclusion args) steps)]
          ++ trace (print_table steps)
          ++ [Print Stdout ""])%list).
Proof.
  intros w args steps verdict Hsteps Hverdict Htable Hshape.
  assert (Hget : py_get verdict "valid" (VBool false) = Raise AttributeError)
    by (destruct verdict; try reflexivity; now destruct (Hshape entries)).
  rewrite (M_eta _ (main w args)); unfold main; fold (obtain_steps w args).
  rewrite outcome_bind, trace_bind, Hsteps; run.
  rewrite outcome_bind, trace_bind, Hverdict, call_proof_checker_trace; run.
  rewrite outcome_bind, trace_bind, Htable; run.
  rewrite outcome_bind, trace_bind; run.
  rewrite outcome_bind, trace_bind, Hget; run.
  cbn [app]. reflexivity.
Qed.

(** X14. A dry run opens no request, and what it does depends on the
    standard input, the path separator and the verifier alone. *)
Theorem dry_run_is_local :
  forall w args,
    dry_run args = true ->
    Forall (fun ev => is_request ev = false) (trace (main w args))
    /\ forall w',
         stdin w' = stdin w -> pathsep w' = pathsep w ->
         subprocess_run w' = subprocess_run w ->
         main w' args = main w args.
Proof.
  intros w args Hdry; split.
  - unfold main; rewrite Hdry.
    apply Forall_trace_bind; [constructor | intros steps _].
    apply Forall_trace_bind;
      [rewrite call_proof_checker_trace; now repeat constructor | intros verdict _].
    apply Forall_trace_bind;
      [ eapply Forall_impl; [| apply print_table_prints];
        now intros [req t | cmd input | [|] text]
      | intros _ _ ].
    apply Forall_trace_bind; [now repeat constructor | intros _ _].
    apply Forall_trace_bind; [constructor | intros valid _].
    apply Forall_trace_bind; [now repeat constructor | intros _ _].
    apply Forall_trace_bind; [constructor | intros valid' _].
    destruct (negb (truthy valid')); [| constructor].
    apply Forall_trace_bind; [constructor | intros error _].
    apply Forall_trace_bind; [| intros _ _; constructor].
    destruct (truthy error); now repeat constructor.
  - intros w' Hin Hsep Hrun.
    unfold main; rewrite Hdry.
    unfold load_steps_from_stdin, call_proof_checker, verifier_command.
    now rewrite Hin, Hsep, Hrun.
Qed.

(** X6. Without a credential a run that is no dry run ends at once: no
    request is opened and the verifier is not run. *)
Theorem main_needs_credential :
  forall w args,
    dry_run args = false ->
    environ w "OPENAI_API_KEY" = None \/ environ w "OPENAI_API_KEY" = Some "" ->
    main w args
    = (Raise (RuntimeError "OPENAI_API_KEY environment variable is required."), []).
Proof.
  intros w args Hdry Hkey; unfold main, call_llm; rewrite Hdry.
  now destruct Hkey as [-> | ->].
Qed.

(** X7. A request that fails is reported with the status and the body of
    the answer, or with the reason; it is not tried again. *)
Theorem failed_request_is_reported :
  forall w model temperature premises conclusion api_key,
    environ w "OPENAI_API_KEY" = Some api_key ->
    api_key <> "" ->
    let req := chat_request w model temperature premises conclusion api_key in
    (forall code message,
        urlopen w req (VInt 120) = HttpError code message ->
        call_llm w model temperature premises conclusion
        = (Raise (RuntimeError
                    ("OpenAI request failed: " ++ str_int code ++ " " ++ message)),
           [Urlopen req (VInt 120)]))
    /\ (forall reason,
          urlopen w req (VInt 120) = UrlError reason ->
          call_llm w model temperature premises conclusion
          = (Raise (RuntimeError ("OpenAI request failed: " ++ reason)),
             [Urlopen req (VInt 120)]))
    /\ (forall e,
          urlopen w req (VInt 120) = HttpRaise e ->
          call_llm w model temperature premises conclusion
          = (Raise e, [Urlopen req (VInt 120)])).
Proof.
  intros w model temperature premises conclusion api_key Hkey Hne req.
  unfold call_llm; rewrite Hkey.
  destruct api_key as [| a k]; [contradiction |]; fold req.
  repeat split; intros; unfold bind, emit, raise, Ok;
    match goal with Hurl : urlopen _ _ _ = _ |- _ => now rewrite Hurl end.
Qed.

Lemma call_llm_body :
  forall w model temperature premises conclusion api_key body,
    environ w "OPENAI_API_KEY" = Some api_key ->
    api_key <> "" ->
    urlopen w (chat_request w model temperature premises conclusion api_key) (VInt 120)
    = HttpBody body ->
    outcome (call_llm w model temperature premises conclusion)
    = (let? reply := json_loads body in
       let? choices := getitem reply "choices" in
       let? choice := getitem_at choices 0 in
       let? message := getitem choice "message" in
       let? content := getitem message "content" in
       let? parsed := loads content in
       let? proof_steps := getitem parsed "proof_steps" in
       let? items := py_iter proof_steps in
       mapR construct items).
Proof.
  intros w model temperature premises conclusion api_key body Hkey Hne Hurl.
  unfold call_llm; rewrite Hkey.
  destruct api_key as [| a k]; [contradiction |].
  rewrite Hurl. unfold outcome, bind, emit, ret, lift, Ok; cbv beta iota; cbn [fst].
  destruct (json_loads body) as [e | reply]; [reflexivity |]; cbn [rbind].
  destruct (getitem reply "choices") as [e | choices]; [reflexivity |]; cbn [rbind].
  destruct (getitem_at choices 0) as [e | choice]; [reflexivity |]; cbn [rbind].
  destruct (getitem choice "message") as [e | message]; [reflexivity |]; cbn [rbind].
  destruct (getitem message "content") as [e | content]; [reflexivity |]; cbn [rbind].
  destruct (loads content) as [e | parsed]; [reflexivity |]; cbn [rbind].
  destruct (getitem parsed "proof_steps") as [e | seq]; [reflexivity |]; cbn [rbind].
  destruct (py_iter seq) as [e | items]; [reflexivity |]; cbn [rbind].
  etransitivity; [apply rbind_Ok |].
  apply mapR_ext; intros item; apply item_is_constructed.
Qed.

(** X8. An answer of the backend that has not the shape of a completion
    makes [call_llm] raise: the error of the parser for a body that is no
    JSON, [KeyError] for an object without [choices], [IndexError] for no
    choice, [TypeError] for a content that is no text. *)
Theorem malformed_reply_raises :
  forall w model temperature premises conclusion api_key body,
    environ w "OPENAI_API_KEY" = Some api_key ->
    api_key <> "" ->
    urlopen w (chat_request w model temperature premises conclusion api_key) (VInt 120)
    = HttpBody body ->
    (forall e,
        json_loads body = Raise e ->
        outcome (call_llm w model temperature premises conclusion) = Raise e)
    /\ (forall entries,
          json_loads body = Ok (VDict entries) ->
          dict_get entries "choices" = None ->
          outcome (call_llm w model temperature premises conclusion)
          = Raise (KeyError (VStr "choices")))
    /\ (forall entries,
          json_loads body = Ok (VDict entries) ->
          dict_get entries "choices" = Some (VList []) ->
          outcome (call_llm w model temperature premises conclusion) = Raise IndexError)
    /\ (forall reply choices choice message content,
          json_loads body = Ok reply ->
          getitem reply "choices" = Ok choices ->
          getitem_at choices 0 = Ok choice ->
          getitem choice "message" = Ok message ->
          getitem message "content" = Ok content ->
          is_text content = false ->
          outcome (call_llm w model temperature premises conclusion) = Raise TypeError).
Proof.
  intros w model temperature premises conclusion api_key body Hkey Hne Hurl.
  rewrite (call_llm_body _ _ _ _ _ _ _ Hkey Hne Hurl).
  split; [| split; [| split]].
  - intros e ->; reflexivity.
  - intros entries -> Hc; unfold Ok; cbn [rbind getitem]; now rewrite Hc.
  - intros entries -> Hc; unfold Ok; cbn [rbind getitem]; now rewrite Hc.
  - intros reply choices choice message content -> Hchoices Hchoice Hmessage Hcontent Htext.
    unfold Ok in *; cbn [rbind]. rewrite Hchoices; cbn [rbind].
    rewrite Hchoice; cbn [rbind]. rewrite Hmessage; cbn [rbind].
    rewrite Hcontent; cbn [rbind].
    destruct content; try reflexivity; discriminate.
Qed.

(** X15. A dry run whose input is no JSON, or has no [proof_steps], ends
    with the error of the parser, or with [KeyError]: the verifier is not
    run and nothing is printed. *)
Theorem dry_run_of_bad_input :
  forall w args,
    dry_run args = true ->
    (forall e, json_loads (stdin w) = Raise e -> main w args = (Raise e, []))
    /\ (forall entries,
          json_loads (stdin w) = Ok (VDict entries) ->
          dict_get entries "proof_steps" = None ->
          main w args = (Raise (KeyError (VStr "proof_steps")), [])).
Proof.
  intros w args Hdry; split.
  - intros e He; unfold main, load_steps_from_stdin; rewrite Hdry, He; reflexivity.
  - intros entries Hdoc Hnone; unfold main, load_steps_from_stdin.
    rewrite Hdry, Hdoc; unfold Ok; cbn [rbind getitem lift]. now rewrite Hnone.
Qed.

(** X9. [call_proof_checker] returns a verdict only when the verifier
    ran, exited with status zero, and wrote an output that is not blank
    and parses to that verdict. *)
Theorem verdict_comes_from_a_clean_exit :
  forall w premises conclusion steps verdict,
    outcome (call_proof_checker w premises conclusion steps) = Ok verdict ->
    exists proc,
      verifier_ran w premises conclusion steps proc
      /\ returncode proc = 0%Z
      /\ blank (stdout proc) = false
      /\ json_loads (strip (stdout proc)) = Ok verdict.
Proof.
  intros w premises conclusion steps verdict Hout.
  destruct (subprocess_run w (verifier_command w) (payload premises conclusion steps))
    as [e | proc] eqn:Hrun.
  - unfold call_proof_checker, outcome, bind, emit, lift in Hout.
    rewrite Hrun in Hout; discriminate.
  - exists proc. rewrite (call_proof_checker_outcome _ _ _ _ _ Hrun) in Hout.
    destruct (Z.eqb_spec (returncode proc) 0) as [Hcode |]; [| discriminate].
    cbn [negb] in Hout.
    destruct (String.eqb_spec (strip (stdout proc)) "") as [| Hne]; [discriminate |].
    repeat split; try assumption.
    + destruct (blank (stdout proc)) eqn:Hb; [| reflexivity].
      apply strip_blank in Hb; contradiction.
    + destruct (json_loads (strip (stdout proc))) as [[] | v]; try discriminate.
      exact Hout.
Qed.

(** X16. In a dry run the verifier is run on the request made of the
    arguments and of the steps of the standard input, in their order. *)
Theorem dry_run_request :
  forall w args parsed seq items (steps : list (string * string)),
    dry_run args = true ->
    json_loads (stdin w) = Ok parsed ->
    getitem parsed "proof_steps" = Ok seq ->
    py_iter seq = Ok items ->
    mapR construct items = Ok (text_steps steps) ->
    exists rest,
      trace (main w args)
      = SubprocessRun (verifier_command w)
          (join nl (wire_lines (premise args) (conclusion args) steps) ++ nl)
          :: rest.
Proof.
  intros w args parsed seq items steps Hdry Hdoc Hseq Hitems Hsteps.
  assert (Hload : outcome (load_steps_from_stdin w) = Ok (text_steps steps)).
  { rewrite load_steps_from_stdin_outcome.
    now rewrite (steps_of_document_items _ _ _ _ Hdoc Hseq Hitems). }
  unfold main; rewrite Hdry, trace_bind, Hload; run.
  change (trace (load_steps_from_stdin w)) with (@nil event); cbn [app].
  rewrite trace_bind, call_proof_checker_trace.
  unfold payload; rewrite payload_lines_text.
  destruct (outcome (call_proof_checker _ _ _ _)); eexists; reflexivity.
Qed.

End Further.

(** ** Further runs *)

Lemma request_is_read_back_witness :
  ["P → Q"; "P"] = ["P → Q"; "P"] /\ "Q" = "Q" /\ Sample.modus_ponens = Sample.modus_ponens.
Proof.
  exact (@request_is_read_back cpython ["P → Q"; "P"] ["P → Q"; "P"] "Q" "Q"
           Sample.modus_ponens Sample.modus_ponens eq_refl eq_refl eq_refl).
Defined.

Lemma table_is_aligned_witness :
  exists lines width,
    print_table (text_steps Sample.modus_ponens) = (Ok tt, map (Print Stdout) lines)
    /\ List.length lines = 5
    /\ (28 <= width)%nat
    /\ Forall (fun line => str_len line = width) lines.
Proof. exact (table_is_aligned Sample.modus_ponens eq_refl). Defined.

(** The formula of the only step is [None]. *)
Lemma table_of_unsized_field_witness :
  print_table [{| formula := VNone; rule := VStr "Premise" |}] = (Raise TypeError, []).
Proof.
  exact (table_of_unsized_field [{| formula := VNone; rule := VStr "Premise" |}] eq_refl).
Defined.


(** No variable is set in the environment. *)
Lemma main_needs_credential_witness :
  @main cpython
    (Sample.world (fun _ => None) "" Sample.silent (Sample.verifier 0 "" ""))
    {| premise := ["P"]; conclusion := "Q"; model := "gpt-4.1-mini";
       temperature := VInt 1; dry_run := false |}
  = (Raise (RuntimeError "OPENAI_API_KEY environment variable is required."), []).
Proof.
  refine (@main_needs_credential cpython
            (Sample.world (fun _ => None) "" Sample.silent (Sample.verifier 0 "" ""))
            {| premise := ["P"]; conclusion := "Q"; model := "gpt-4.1-mini";
               temperature := VInt 1; dry_run := false |}
            eq_refl _).
  now left.
Defined.

(** The backend cannot be reached. *)
Lemma failed_request_is_reported_witness :
  @call_llm cpython Sample.accepting "gpt-4.1-mini" (VInt 1) ["P"] "Q"
  = (Raise (RuntimeError "OpenAI request failed: unreachable"),
     [Urlopen (@chat_request cpython Sample.accepting "gpt-4.1-mini" (VInt 1) ["P"] "Q" "sk-test")
        (VInt 120)]).
Proof.
  refine (proj1 (proj2 (@failed_request_is_reported cpython Sample.accepting "gpt-4.1-mini"
                          (VInt 1) ["P"] "Q" "sk-test" eq_refl _))
            "unreachable" eq_refl).
  discriminate.
Defined.

(** The backend answers with an empty object. *)
Lemma malformed_reply_raises_witness :
  outcome
    (@call_llm cpython
       (Sample.world Sample.credential "" (fun _ _ => HttpBody "{}") (Sample.verifier 0 "" ""))
       "gpt-4.1-mini" (VInt 1) ["P"] "Q")
  = Raise (KeyError (VStr "choices")).
Proof.
  refine (proj1 (proj2 (@malformed_reply_raises cpython
                          (Sample.world Sample.credential "" (fun _ _ => HttpBody "{}")
                             (Sample.verifier 0 "" ""))
                          "gpt-4.1-mini" (VInt 1) ["P"] "Q" "sk-test" "{}" eq_refl _ eq_refl))
            [] eq_refl eq_refl).
  discriminate.
Defined.

Lemma verdict_comes_from_a_clean_exit_witness :
  exists proc,
    @verifier_ran cpython Sample.accepting [] "Q" [] proc
    /\ returncode proc = 0%Z
    /\ blank (stdout proc) = false
    /\ Reference.loads (strip (stdout proc)) = Ok (VDict [("valid", VBool true)]).
Proof.
  exact (@verdict_comes_from_a_clean_exit cpython Sample.accepting [] "Q" []
           (VDict [("valid", VBool true)]) eq_refl).
Defined.

(** A dry run on an input that is no JSON. *)
Lemma main_stops_when_steps_fail_witness :
  let w := Sample.world Sample.credential "oops" Sample.silent (Sample.verifier 0 "" "") in
  let args :=
    {| premise := ["P"]; conclusion := "Q"; model := "gpt-4.1-mini";
       temperature := VInt 1; dry_run := true |} in
  @main cpython w args
  = (Raise (JSONDecodeError "Expecting value: line 1 column 1 (char 0)"), [])
  /\ Forall (fun ev => is_run ev = false /\ is_print ev = false) (trace (@main cpython w args)).
Proof.
  intros w args.
  exact (@main_stops_when_steps_fail cpython w args
           (JSONDecodeError "Expecting value: line 1 column 1 (char 0)") eq_refl).
Defined.

(** A dry run in which the verifier exits with status 3. *)
Lemma main_stops_when_verifier_fails_witness :
  let w :=
    Sample.world Sample.credential Sample.one_step Sample.silent
      (Sample.verifier 3 "" ("boom" ++ nl)) in
  let args :=
    {| premise := ["P"]; conclusion := "Q"; model := "gpt-4.1-mini";
       temperature := VInt 1; dry_run := true |} in
  @main cpython w args
  = (Raise (RuntimeError "Proof verifier exited with code 3: boom"),
     [SubprocessRun ["java"; "-cp"; ".:src"; "integration.ProofVerifier"]
        ("CONCLUSION|Q" ++ nl ++ "PREMISE|P" ++ nl ++ "STEP|Q||→e 1" ++ nl)]).
Proof.
  intros w args.
  exact (@main_stops_when_verifier_fails cpython w args [step "Q" "→e 1"]
           (RuntimeError "Proof verifier exited with code 3: boom") eq_refl eq_refl).
Defined.

(** A dry run in which the verifier rejects the proof. *)
Lemma main_report_witness :
  let w :=
    Sample.world Sample.credential Sample.one_step Sample.silent
      (Sample.verifier 0 (Sample.rejected ++ nl) "") in
  let args :=
    {| premise := ["P"]; conclusion := "Q"; model := "gpt-4.1-mini";
       temperature := VInt 1; dry_run := true |} in
  @main cpython w args
  = (Ok 1%Z,
     [ SubprocessRun ["java"; "-cp"; ".:src"; "integration.ProofVerifier"]
         ("CONCLUSION|Q" ++ nl ++ "PREMISE|P" ++ nl ++ "STEP|Q||→e 1" ++ nl);
       Print Stdout "Step  Formula  Justification";
       Print Stdout "----  -------  -------------";
       Print Stdout "1     Q        →e 1         ";
       Print Stdout "";
       Print Stdout (@summary cpython (VBool false) [step "Q" "→e 1"]);
       Print Stderr "Proof checker error: line 3 cites unknown reference" ]).
Proof.
  intros w args.
  exact (@main_report cpython w args [step "Q" "→e 1"]
           [("valid", VBool false); ("error", VStr "line 3 cites unknown reference")]
           eq_refl eq_refl eq_refl).
Defined.

(** A dry run in which the verifier prints an empty array. *)
Lemma verdict_that_is_no_object_witness :
  let w :=
    Sample.world Sample.credential Sample.one_step Sample.silent
      (Sample.verifier 0 ("[]" ++ nl) "") in
  let args :=
    {| premise := ["P"]; conclusion := "Q"; model := "gpt-4.1-mini";
       temperature := VInt 1; dry_run := true |} in
  @main cpython w args
  = (Raise AttributeError,
     [ SubprocessRun ["java"; "-cp"; ".:src"; "integration.ProofVerifier"]
         ("CONCLUSION|Q" ++ nl ++ "PREMISE|P" ++ nl ++ "STEP|Q||→e 1" ++ nl);
       Print Stdout "Step  Formula  Justification";
       Print Stdout "----  -------  -------------";
       Print Stdout "1     Q        →e 1         ";
       Print Stdout "" ]).
Proof.
  intros w args.
  refine (@verdict_that_is_no_object cpython w args [step "Q" "→e 1"] (VList [])
            eq_refl eq_refl eq_refl _).
  discriminate.
Defined.

Lemma dry_run_is_local_witness :
  let w :=
    Sample.world (fun _ => None) Sample.one_step Sample.silent
      (Sample.verifier 0 (Sample.accepted ++ nl) "") in
  let args :=
    {| premise := ["P"]; conclusion := "Q"; model := "gpt-4.1-mini";
       temperature := VInt 1; dry_run := true |} in
  Forall (fun ev => is_request ev = false) (trace (@main cpython w args))
  /\ forall w',
       stdin w' = stdin w -> pathsep w' = pathsep w ->
       subprocess_run w' = subprocess_run w ->
       @main cpython w' args = @main cpython w args.
Proof.
  intros w args. exact (@dry_run_is_local cpython w args eq_refl).
Defined.

Lemma dry_run_of_bad_input_witness :
  let w := Sample.world Sample.credential "{}" Sample.silent (Sample.verifier 0 "" "") in
  let args :=
    {| premise := ["P"]; conclusion := "Q"; model := "gpt-4.1-mini";
       temperature := VInt 1; dry_run := true |} in
  @main cpython w args = (Raise (KeyError (VStr "proof_steps")), []).
Proof.
  intros w args.
  exact (proj2 (@dry_run_of_bad_input cpython w args eq_refl) [] eq_refl eq_refl).
Defined.

Lemma dry_run_request_witness :
  let w :=
    Sample.world Sample.credential Sample.no_rule Sample.silent
      (Sample.verifier 0 (Sample.accepted ++ nl) "") in
  let args :=
    {| premise := ["P"]; conclusion := "P"; model := "gpt-4.1-mini";
       temperature := VInt 1; dry_run := true |} in
  exists rest,
    trace (@main cpython w args)
    = SubprocessRun ["java"; "-cp"; ".:src"; "integration.ProofVerifier"]
        ("CONCLUSION|P" ++ nl ++ "PREMISE|P" ++ nl ++ "STEP|P||" ++ nl)
        :: rest.
Proof.
  intros w args.
  exact (@dry_run_request cpython w args
           (VDict [("proof_steps", VList [VDict [("formula", VStr "P")]])])
           (VList [VDict [("formula", VStr "P")]])
           [VDict [("formula", VStr "P")]]
           [("P", "")]
           eq_refl eq_refl eq_refl eq_refl eq_refl).
Defined.
